(** * Task-management analytics service: statistics and productivity reducers

    A shallow embedding of [analytics-service/main.py]: the identifier
    validator, the two request handlers ([get_user_statistics] and
    [get_productivity_analysis]) and the Python run-time operations they rely
    on (binary64 arithmetic, [round], [datetime] comparison and formatting,
    [dict] updates and [sorted]).

    Conventions.
    - Python [int] is [Z]; Python [float] is an IEEE-754 binary64 value,
      represented by the standard library's [spec_float] at precision 53.
    - Exceptions are explicit: a computation returns [Ok v] or [Raise e].
    - The document store and the system clock are outside the program; they
      are the variables of the section that holds the handlers. *)

From Stdlib Require Import ZArith Lia String Ascii List.
From Stdlib Require Import Floats.SpecFloat.
From stdpp Require Import gmap strings list sorting.

Open Scope Z_scope.

(** ** Exceptions *)

Inductive exn :=
  | HTTPException (status_code : Z) (detail : string)
  | PyException (cls : string) (msg : string).

Inductive result (A : Type) :=
  | Ok (a : A)
  | Raise (e : exn).
Arguments Ok {A} a.
Arguments Raise {A} e.

Definition ZeroDivisionError : exn :=
  PyException "ZeroDivisionError" "division by zero".
Definition OverflowError_truediv : exn :=
  PyException "OverflowError" "integer division result too large for a float".
Definition OverflowError_int2float : exn :=
  PyException "OverflowError" "int too large to convert to float".

(** [str(e)] *)
Definition exn_str (e : exn) : string :=
  match e with
  | HTTPException code detail => detail
  | PyException _ msg => msg
  end.

(** ** Python floats: binary64 *)

Module Float64.

Definition prec : Z := 53.
Definition emax : Z := 1024.

Abbreviation float := spec_float.

(** An integer as an (unnormalised) exact binary value. *)
Definition Z2SF (z : Z) : float :=
  match z with
  | Z0 => S754_zero false
  | Zpos p => S754_finite false p 0
  | Zneg p => S754_finite true p 0
  end.

Definition is_finite (x : float) : bool :=
  match x with
  | S754_zero _ | S754_finite _ _ _ => true
  | S754_infinity _ | S754_nan => false
  end.

(** The binary64 value nearest to the exact quotient [a / b] (ties to
    even), which is what [int.__truediv__] returns when it returns. *)
Definition int_quotient (a b : Z) : float :=
  SFdiv prec emax (Z2SF a) (Z2SF b).

(** [a / b] on two Python ints. *)
Definition int_truediv (a b : Z) : result float :=
  if b =? 0 then Raise ZeroDivisionError
  else
    let q := int_quotient a b in
    if is_finite q then Ok q else Raise OverflowError_truediv.

(** [float(n)] for a Python int [n]. *)
Definition float_of_int (n : Z) : result float :=
  let x := binary_normalize prec emax n 0 false in
  if is_finite x then Ok x else Raise OverflowError_int2float.

(** [x * y] on two floats never raises. *)
Definition float_mul (x y : float) : float := SFmul prec emax x y.

(** [x * n] for a float [x] and an int [n]: the int operand is converted
    first. *)
Definition float_mul_int (x : float) (n : Z) : result float :=
  match float_of_int n with
  | Ok y => Ok (float_mul x y)
  | Raise e => Raise e
  end.

(** The integer nearest to [n * 2^e], ties to the even one ([0 <= n]). *)
Definition round_half_even_scaled (n e : Z) : Z :=
  if 0 <=? e then n * 2 ^ e
  else
    let d := 2 ^ (- e) in
    let q := n / d in
    let r := n mod d in
    match 2 * r ?= d with
    | Lt => q
    | Gt => q + 1
    | Eq => if Z.even q then q else q + 1
    end.

Definition NDIGITS_MAX : nat := 323.

(** [round(x, ndigits)] for [0 <= ndigits]: the exact value of [x] is
    rounded to [ndigits] decimals, ties to even, and the decimal result is
    converted back to the nearest binary64 value.  Infinities, NaN and
    zeros round to themselves. *)
Definition py_round (x : float) (ndigits : nat) : float :=
  match x with
  | S754_finite s m e =>
      if (NDIGITS_MAX <? ndigits)%nat then x
      else
        let p := 10 ^ Z.of_nat ndigits in
        match round_half_even_scaled (Zpos m * p) e with
        | Zpos k => SFdiv prec emax (S754_finite s k 0) (Z2SF p)
        | _ => S754_zero s
        end
  | _ => x
  end.

(** [100.0] *)
Definition f100 : float := S754_finite false 7036874417766400 (-46).

End Float64.
Import Float64.

(** A JSON number produced by the handlers: an [int] or a [float]. *)
Inductive pynum :=
  | PyInt (z : Z)
  | PyFloat (x : float).

(** ** Error-monad plumbing for pure fallible code *)

Definition result_bind {A B} (m : result A) (k : A -> result B) : result B :=
  match m with
  | Ok a => k a
  | Raise e => Raise e
  end.

Notation "'try!' x ':=' m 'in' k" := (result_bind m (fun x => k))
  (at level 10, x name, m at level 100, k at level 200).

(** ** [datetime] *)

(** A naive [datetime.datetime]; Python keeps [1 <= year <= 9999],
    [1 <= month <= 12], [1 <= day <= 31] and the usual ranges of the time
    fields. *)
Record datetime := mk_datetime {
  year : Z;
  month : Z;
  day : Z;
  hour : Z;
  minute : Z;
  second : Z;
  microsecond : Z
}.

Definition datetime_wf (d : datetime) : Prop :=
  1 <= year d <= 9999 /\ 1 <= month d <= 12 /\ 1 <= day d <= 31.

Definition lex (c1 c2 : comparison) : comparison :=
  match c1 with
  | Eq => c2
  | _ => c1
  end.

(** Naive datetimes compare field by field, most significant first. *)
Definition datetime_cmp (a b : datetime) : comparison :=
  lex (year a ?= year b)
  (lex (month a ?= month b)
  (lex (day a ?= day b)
  (lex (hour a ?= hour b)
  (lex (minute a ?= minute b)
  (lex (second a ?= second b)
       (microsecond a ?= microsecond b)))))).

(** [a < b] *)
Definition datetime_lt (a b : datetime) : bool :=
  match datetime_cmp a b with
  | Lt => true
  | _ => false
  end.

(** [a <= b] *)
Definition datetime_le (a b : datetime) : Prop := datetime_cmp a b <> Gt.

(** The fields of a timestamp, most significant first, and the
    lexicographic comparison of two such lists. *)
Definition datetime_fields (d : datetime) : list Z :=
  [year d; month d; day d; hour d; minute d; second d; microsecond d].

Fixpoint fields_cmp (l1 l2 : list Z) : comparison :=
  match l1, l2 with
  | [], [] => Eq
  | [], _ :: _ => Lt
  | _ :: _, [] => Gt
  | x :: l1', y :: l2' => lex (x ?= y) (fields_cmp l1' l2')
  end.

Definition digit_char (n : Z) : ascii :=
  ascii_of_nat (48 + Z.to_nat (n mod 10)).

Definition zpad2 (n : Z) : string :=
  String (digit_char (n / 10)) (String (digit_char n) EmptyString).

Definition zpad4 (n : Z) : string :=
  String (digit_char (n / 1000)) (String (digit_char (n / 100)) (zpad2 n)).

Definition zpad6 (n : Z) : string :=
  String (digit_char (n / 100000)) (String (digit_char (n / 10000)) (zpad4 n)).

(** [d.strftime('%Y-%m-%d')]: the year in four digits, the month and the
    day in two, as printed for every year from 1000 on. *)
Definition strftime_Ymd (d : datetime) : string :=
  zpad4 (year d) +:+ "-" +:+ zpad2 (month d) +:+ "-" +:+ zpad2 (day d).

(** [d.isoformat()] *)
Definition isoformat (d : datetime) : string :=
  strftime_Ymd d +:+ "T" +:+ zpad2 (hour d) +:+ ":" +:+ zpad2 (minute d)
    +:+ ":" +:+ zpad2 (second d)
    +:+ (if microsecond d =? 0 then "" else "." +:+ zpad6 (microsecond d)).

(** The calendar day of a timestamp. *)
Definition calendar_day (d : datetime) : Z * Z * Z := (year d, month d, day d).

(** ** Task records *)

(** The value found under a key of a stored document; [PyNone] is what
    [task.get(key)] returns for a key that is absent or null. *)
Inductive pyvalue :=
  | PyNone
  | PyStr (s : string)
  | PyNumber (z : Z)
  | PyBoolean (b : bool).

(** [v == s] for a string literal [s] *)
Definition py_eq_str (v : pyvalue) (s : string) : bool :=
  match v with
  | PyStr s' => bool_decide (s' = s)
  | _ => false
  end.

(** A task document as the handlers read it: [task.get('status')],
    [task.get('priority')], [task.get('createdAt')], [task.get('dueDate')].
    Date fields decode to [datetime]; [None] stands for an absent one. *)
Record task := mk_task {
  status : pyvalue;
  priority : pyvalue;
  createdAt : option datetime;
  dueDate : option datetime
}.

(** [len(l)] *)
Definition len {A} (l : list A) : Z := Z.of_nat (length l).

(** [sum(1 for x in l if p(x))] *)
Definition sum_1_if {A} (p : A -> bool) (l : list A) : Z :=
  fold_left (fun acc x => if p x then acc + 1 else acc) l 0.

Definition is_status (s : string) (t : task) : bool := py_eq_str (status t) s.
Definition is_priority (s : string) (t : task) : bool := py_eq_str (priority t) s.

(** ** Identifier validator *)

Definition hex_value (c : ascii) : option N :=
  let n := N_of_ascii c in
  if ((48 <=? n) && (n <=? 57))%N then Some (n - 48)%N
  else if ((97 <=? n) && (n <=? 102))%N then Some (n - 87)%N
  else if ((65 <=? n) && (n <=? 70))%N then Some (n - 55)%N
  else None.

Fixpoint bytes_fromhex (s : string) : option (list N) :=
  match s with
  | EmptyString => Some []
  | String c1 (String c2 rest) =>
      match hex_value c1, hex_value c2, bytes_fromhex rest with
      | Some h, Some l, Some bs => Some ((16 * h + l)%N :: bs)
      | _, _, _ => None
      end
  | String _ EmptyString => None
  end.

(** The twelve bytes of a store-native identifier. *)
Record ObjectId := mk_ObjectId { binary : list N }.

Definition InvalidId (s : string) : exn :=
  PyException "InvalidId"
    (s +:+ " is not a valid ObjectId, it must be a 12-byte input or a 24-character hex string").

(** Modelled from the spec: [bson.ObjectId], the store client's identifier
    class, is not part of the repository.  The spec gives the store's native
    format as a 24-character hex string; the constructor accepts exactly
    those strings and raises [InvalidId] on every other one. *)
Definition ObjectId_of_str (id_str : string) : result ObjectId :=
  if (String.length id_str =? 24)%nat then
    match bytes_fromhex id_str with
    | Some bs => Ok (mk_ObjectId bs)
    | None => Raise (InvalidId id_str)
    end
  else Raise (InvalidId id_str).

(** A well-formed identifier: 24 characters, all of them hex digits. *)
Definition well_formed_id (s : string) : bool :=
  (String.length s =? 24)%nat
  && forallb (fun c => bool_decide (is_Some (hex_value c))) (list_ascii_of_string s).

Definition validate_object_id (id_str : string) : result ObjectId :=
  match ObjectId_of_str id_str with
  | Ok oid => Ok oid
  | Raise _ => Raise (HTTPException 400 "Invalid user ID format")
  end.

(** ** Statistics Aggregator *)

(** The dict literal [{k1: v1, k2: v2, k3: v3}]. *)
Definition dict3 (k1 : string) (v1 : Z) (k2 : string) (v2 : Z)
    (k3 : string) (v3 : Z) : gmap string Z :=
  <[k3 := v3]> (<[k2 := v2]> (<[k1 := v1]> ∅)).

(** The response body of [get_user_statistics]. *)
Record user_statistics := mk_user_statistics {
  us_success : bool;
  us_user_id : string;
  total_tasks : Z;
  completed_tasks : Z;
  pending_tasks : Z;
  in_progress_tasks : Z;
  completion_rate : pynum;
  priority_distribution : gmap string Z;
  status_distribution : gmap string Z
}.

(** The literal returned under [if not tasks:]. *)
Definition empty_statistics (user_id : string) : user_statistics :=
  {| us_success := true;
     us_user_id := user_id;
     total_tasks := 0;
     completed_tasks := 0;
     pending_tasks := 0;
     in_progress_tasks := 0;
     completion_rate := PyInt 0;
     priority_distribution := dict3 "Low" 0 "Medium" 0 "High" 0;
     status_distribution := dict3 "Todo" 0 "In Progress" 0 "Completed" 0 |}.

(** [round((completed / total * 100), 2) if total > 0 else 0] *)
Definition percentage (completed total : Z) : result pynum :=
  if 0 <? total then
    try! q := int_truediv completed total in
    try! p := float_mul_int q 100 in
    Ok (PyFloat (py_round p 2))
  else Ok (PyInt 0).

(** The general path of [get_user_statistics]: everything after the
    empty-list return. *)
Definition tally_statistics (user_id : string) (tasks : list task)
    : result user_statistics :=
  let total_tasks := len tasks in
  let completed_tasks := sum_1_if (is_status "Completed") tasks in
  let in_progress_tasks := sum_1_if (is_status "In Progress") tasks in
  let pending_tasks := sum_1_if (is_status "Todo") tasks in
  let priority_distribution :=
    dict3 "Low" (sum_1_if (is_priority "Low") tasks)
          "Medium" (sum_1_if (is_priority "Medium") tasks)
          "High" (sum_1_if (is_priority "High") tasks) in
  let status_distribution :=
    dict3 "Todo" pending_tasks
          "In Progress" in_progress_tasks
          "Completed" completed_tasks in
  try! completion_rate := percentage completed_tasks total_tasks in
  Ok {| us_success := true;
        us_user_id := user_id;
        total_tasks := total_tasks;
        completed_tasks := completed_tasks;
        pending_tasks := pending_tasks;
        in_progress_tasks := in_progress_tasks;
        completion_rate := completion_rate;
        priority_distribution := priority_distribution;
        status_distribution := status_distribution |}.

(** The reduction of [get_user_statistics] over the fetched list. *)
Definition statistics_aggregator (user_id : string) (tasks : list task)
    : result user_statistics :=
  match tasks with
  | [] => Ok (empty_statistics user_id)
  | _ :: _ => tally_statistics user_id tasks
  end.

(** ** Productivity Analyzer: the pure part *)

Record trend_entry := mk_trend_entry {
  date : string;
  count : Z
}.

(** The response body of [get_productivity_analysis]. *)
Record productivity_analysis := mk_productivity_analysis {
  pa_success : bool;
  pa_user_id : string;
  period_days : Z;
  start_date : string;
  end_date : string;
  total_tasks_created : Z;
  total_tasks_completed : Z;
  overdue_tasks : Z;
  avg_tasks_per_day : pynum;
  avg_completions_per_day : pynum;
  daily_completion_trend : list trend_entry;
  productivity_score : pynum
}.

(** One iteration of the loop over [completed_tasks]. *)
Definition record_completion (daily_completions : gmap string Z) (t : task)
    : gmap string Z :=
  match createdAt t with
  | Some created_date =>
      let date_key := strftime_Ymd created_date in
      <[date_key := default 0 (daily_completions !! date_key) + 1]> daily_completions
  | None => daily_completions
  end.

Definition daily_completions_of (completed_tasks : list task) : gmap string Z :=
  fold_left record_completion completed_tasks ∅.

(** Python orders tuples lexicographically: first by the string, then by
    the int. *)
Definition item_leb (a b : string * Z) : bool :=
  if decide (a.1 = b.1) then bool_decide (a.2 <= b.2)
  else bool_decide (String.le a.1 b.1).

Definition item_le (a b : string * Z) : Prop := item_leb a b = true.

#[global] Instance item_le_dec : RelDecision item_le.
Proof. intros a b. unfold item_le. apply _. Defined.

(** [sorted(d.items())]: the items of a dict are pairwise distinct, so the
    ascending arrangement is unique and any correct sort returns it. *)
Definition sorted_items (d : gmap string Z) : list (string * Z) :=
  merge_sort item_le (map_to_list d).

Definition trend_of (daily_completions : gmap string Z) : list trend_entry :=
  (fun '(date, count) => {| date := date; count := count |})
    <$> sorted_items daily_completions.

(** [round(n / days, 2) if days > 0 else 0] *)
Definition per_day (n days : Z) : result pynum :=
  if 0 <? days then
    try! q := int_truediv n days in
    Ok (PyFloat (py_round q 2))
  else Ok (PyInt 0).

(** ** The outside world: store and clock *)

(** The two filters the handlers pass to [db.tasks.find]. *)
Inductive query :=
  | FindByUser (user : ObjectId)
  | FindByUserCreatedBetween (user : ObjectId) (gte lte : datetime).

(** What a request has done so far: how often it read the clock, and the
    queries it sent to the store, oldest first. *)
Record world := mk_world {
  clock_reads : nat;
  fetches : list query
}.

(** A handler step: it may read the clock, query the store and raise. *)
Definition M (A : Type) : Type := world -> result A * world.

Definition ret {A} (a : A) : M A := fun w => (Ok a, w).

Definition bind {A B} (m : M A) (k : A -> M B) : M B :=
  fun w =>
    match m w with
    | (Ok a, w') => k a w'
    | (Raise e, w') => (Raise e, w')
    end.

Definition lift {A} (r : result A) : M A := fun w => (r, w).

Notation "'do!' x ':=' m 'in' k" := (bind m (fun x => k))
  (at level 10, x name, m at level 100, k at level 200).

(** The handlers' exception clauses:
    [except HTTPException: raise] and
    [except Exception as e: raise HTTPException(500, prefix + str(e))]. *)
Definition handle_errors {A} (prefix : string) (m : M A) : M A :=
  fun w =>
    match m w with
    | (Raise (PyException cls msg), w') =>
        (Raise (HTTPException 500 (prefix +:+ exn_str (PyException cls msg))), w')
    | other => other
    end.

Section Handlers.

(** [clock n] is what the [n]-th call of [datetime.now()] returns. *)
Variable clock : nat -> datetime.

(** The store's answer to a query: the matching documents, or the
    exception the client raises. *)
Variable find : query -> result (list task).

(** [d - timedelta(days=n)], which raises [OverflowError] outside the
    range of [timedelta] or of [datetime]. *)
Variable datetime_sub_days : datetime -> Z -> result datetime.

(** [datetime.now()] *)
Definition datetime_now : M datetime :=
  fun w => (Ok (clock (clock_reads w)),
            {| clock_reads := S (clock_reads w); fetches := fetches w |}).

(** [list(db.tasks.find(q))] *)
Definition db_tasks_find (q : query) : M (list task) :=
  fun w => (find q,
            {| clock_reads := clock_reads w; fetches := fetches w ++ [q] |}).

(** [get_user_statistics(user_id)] *)
Definition get_user_statistics (user_id : string) : M user_statistics :=
  handle_errors "Error fetching user statistics: "
    (do! user_object_id := lift (validate_object_id user_id) in
     do! tasks := db_tasks_find (FindByUser user_object_id) in
     lift (statistics_aggregator user_id tasks)).

(** [sum(1 for task in tasks if task.get('status') != 'Completed'
          and task.get('dueDate') and task.get('dueDate') < datetime.now())]:
    the clock is read once for every task that reaches the comparison. *)
Fixpoint overdue_sum (tasks : list task) (acc : Z) : M Z :=
  match tasks with
  | [] => ret acc
  | t :: rest =>
      if negb (is_status "Completed" t) then
        match dueDate t with
        | Some due =>
            do! now := datetime_now in
            overdue_sum rest (if datetime_lt due now then acc + 1 else acc)
        | None => overdue_sum rest acc
        end
      else overdue_sum rest acc
  end.

(** The reduction of [get_productivity_analysis] over the fetched list. *)
Definition productivity_analyzer (user_id : string) (days : Z)
    (start_date end_date : datetime) (tasks : list task)
    : M productivity_analysis :=
  let completed_tasks := List.filter (is_status "Completed") tasks in
  let daily_completions := daily_completions_of completed_tasks in
  let total_created := len tasks in
  let total_completed := len completed_tasks in
  do! avg_tasks_per_day := lift (per_day total_created days) in
  do! avg_completions_per_day := lift (per_day total_completed days) in
  do! overdue_tasks := overdue_sum tasks 0 in
  let daily_completion_trend := trend_of daily_completions in
  do! productivity_score := lift (percentage total_completed total_created) in
  ret {| pa_success := true;
         pa_user_id := user_id;
         period_days := days;
         start_date := isoformat start_date;
         end_date := isoformat end_date;
         total_tasks_created := total_created;
         total_tasks_completed := total_completed;
         overdue_tasks := overdue_tasks;
         avg_tasks_per_day := avg_tasks_per_day;
         avg_completions_per_day := avg_completions_per_day;
         daily_completion_trend := daily_completion_trend;
         productivity_score := productivity_score |}.

(** [get_productivity_analysis(user_id, days)]; the query parameter
    [days] defaults to 30. *)
Definition get_productivity_analysis (user_id : string) (days_param : option Z)
    : M productivity_analysis :=
  let days := default 30 days_param in
  handle_errors "Error fetching productivity analysis: "
    (do! user_object_id := lift (validate_object_id user_id) in
     do! end_date := datetime_now in
     do! start_date := lift (datetime_sub_days end_date days) in
     do! tasks := db_tasks_find
                    (FindByUserCreatedBetween user_object_id start_date end_date) in
     productivity_analyzer user_id days start_date end_date tasks).

End Handlers.

(** ** Vocabulary of the properties *)

(** [sys.maxsize]: no Python list is longer. *)
Definition PY_SSIZE_T_MAX : Z := 2 ^ 63 - 1.

(** The number of records that satisfy [p]. *)
Definition count_if {A} (p : A -> bool) (l : list A) : Z :=
  len (List.filter p l).

(** [round(c / t * 100, 2)] as a binary64 value. *)
Definition rounded_percentage (c t : Z) : float :=
  py_round (float_mul (int_quotient c t) f100) 2.

(** [round(n / days, 2)] as a binary64 value. *)
Definition rounded_ratio (n days : Z) : float :=
  py_round (int_quotient n days) 2.

Definition recognized_status (t : task) : bool :=
  is_status "Todo" t || is_status "In Progress" t || is_status "Completed" t.

Definition recognized_priority (t : task) : bool :=
  is_priority "Low" t || is_priority "Medium" t || is_priority "High" t.

(** The record was created on the day that prints as [date_str]. *)
Definition created_on (date_str : string) (t : task) : bool :=
  match createdAt t with
  | Some d => bool_decide (strftime_Ymd d = date_str)
  | None => false
  end.

(** The record was created on calendar day [cd]. *)
Definition created_on_day (cd : Z * Z * Z) (t : task) : bool :=
  match createdAt t with
  | Some d => bool_decide (calendar_day d = cd)
  | None => false
  end.

Definition has_createdAt (t : task) : bool :=
  match createdAt t with
  | Some _ => true
  | None => false
  end.

Definition completed_on (date_str : string) (t : task) : bool :=
  is_status "Completed" t && created_on date_str t.

Definition completed_on_day (cd : Z * Z * Z) (t : task) : bool :=
  is_status "Completed" t && created_on_day cd t.

Definition task_wf (t : task) : Prop :=
  match createdAt t with
  | Some d => datetime_wf d
  | None => True
  end.

(** Overdue at the instant [now]: not completed, due date set, due date
    strictly earlier than [now]. *)
Definition is_overdue (now : datetime) (t : task) : bool :=
  negb (is_status "Completed" t)
  && match dueDate t with
     | Some due => datetime_lt due now
     | None => false
     end.

(** Strictly ascending order on date strings. *)
Definition date_lt (a b : trend_entry) : Prop :=
  String.ltb (date a) (date b) = true.

Definition sum_counts (trend : list trend_entry) : Z :=
  fold_right (fun e acc => count e + acc) 0 trend.

Definition sum_values (items : list (string * Z)) : Z :=
  fold_right (fun kv acc => kv.2 + acc) 0 items.

Definition entry_of_item (item : string * Z) : trend_entry :=
  {| date := item.1; count := item.2 |}.

(** ** Further vocabulary *)

(** [1.0] *)
Definition float_one : float := S754_finite false 4503599627370496 (-52).

(** A zero or a positive finite number: what a JSON encoder prints as a
    plain non-negative number. *)
Definition nonneg_finite (x : float) : bool :=
  match x with
  | S754_zero false | S754_finite false _ _ => true
  | _ => false
  end.

Definition pynum_nonneg_finite (n : pynum) : bool :=
  match n with
  | PyInt z => 0 <=? z
  | PyFloat x => nonneg_finite x
  end.

(** A record that reaches the comparison with [datetime.now()]: not
    completed, due date set. *)
Definition due_candidate (t : task) : bool :=
  negb (is_status "Completed" t)
  && match dueDate t with
     | Some _ => true
     | None => false
     end.

(** A zero or a positive finite number below [2^D]. *)
Definition below_pow2 (x : float) (D : Z) : Prop :=
  match x with
  | S754_zero false => True
  | S754_finite false m e => Zdigits2 (Z.pos m) + e <= D
  | _ => False
  end.




(** What a client can see of a handler's outcome: a body, or an HTTP error
    with status 400 or 500. *)
Definition http_outcome {A} (r : result A) : Prop :=
  match r with
  | Ok _ => True
  | Raise (HTTPException code _) => code = 400 \/ code = 500
  | Raise (PyException _ _) => False
  end.

(** The outside part raises no [HTTPException] of its own. *)
Definition raises_no_http {A} (r : result A) : Prop :=
  match r with
  | Raise (HTTPException _ _) => False
  | _ => True
  end.

(** ** Sample data *)

Definition sample_day (y m d : Z) : datetime := mk_datetime y m d 10 30 0 0.

Definition sample_task (s p : string) (created due : option datetime) : task :=
  {| status := PyStr s; priority := PyStr p; createdAt := created; dueDate := due |}.

(** Seven records: four completed (one of them without a creation
    timestamp and without a priority), one with no status and an unknown
    priority, two past their due date. *)
Definition sample_tasks : list task :=
  [ sample_task "Completed" "Low" (Some (sample_day 2024 3 10)) None;
    sample_task "Completed" "High" (Some (sample_day 2024 3 10))
                (Some (sample_day 2024 3 1));
    sample_task "Todo" "Medium" (Some (sample_day 2024 3 11))
                (Some (sample_day 2024 3 12));
    sample_task "In Progress" "Low" (Some (sample_day 2024 3 9))
                (Some (sample_day 2024 4 1));
    {| status := PyStr "Completed"; priority := PyNone;
       createdAt := None; dueDate := None |};
    sample_task "Completed" "Low" (Some (sample_day 2024 3 8)) None;
    {| status := PyNone; priority := PyStr "Urgent";
       createdAt := Some (sample_day 2024 3 9);
       dueDate := Some (sample_day 2024 1 1) |} ].

(** The first four sample records: every priority is a known one. *)
Definition sample_prioritized : list task := take 4 sample_tasks.

(** The scenario of the spec: ten tasks, 4 Completed, 3 In Progress,
    3 Todo, with priorities Low 5, Medium 3, High 2. *)
Definition scenario_tasks : list task :=
  [ sample_task "Completed" "Low" None None;
    sample_task "Completed" "Low" None None;
    sample_task "Completed" "Low" None None;
    sample_task "Completed" "Low" None None;
    sample_task "In Progress" "Low" None None;
    sample_task "In Progress" "Medium" None None;
    sample_task "In Progress" "Medium" None None;
    sample_task "Todo" "Medium" None None;
    sample_task "Todo" "High" None None;
    sample_task "Todo" "High" None None ].

(** A clock that stands still. *)
Definition sample_now : datetime := mk_datetime 2024 3 15 12 0 0 0.
Definition sample_clock (n : nat) : datetime := sample_now.

Definition sample_world : world := {| clock_reads := 0; fetches := [] |}.

(** A store that answers every query with the sample records. *)
Definition sample_find (q : query) : result (list task) := Ok sample_tasks.

(** A subtraction that stays inside the month of [d]; the samples need no
    more. *)
Definition sample_sub_days (d : datetime) (n : Z) : result datetime :=
  if (0 <=? n) && (n <? day d) then
    Ok (mk_datetime (year d) (month d) (day d - n) (hour d) (minute d)
                    (second d) (microsecond d))
  else Raise (PyException "OverflowError" "date value out of range").

Definition sample_id : string := "507f1f77bcf86cd799439011".

(** The bytes of [sample_id]. *)
Definition sample_oid : ObjectId :=
  {| binary := [80; 127; 31; 119; 188; 248; 108; 215; 153; 67; 144; 17]%N |}.

(** The sample records as the store might return them another time. *)
Definition sample_tasks_reordered : list task := reverse sample_tasks.

(** Two completed records, and two that are not. *)
Definition sample_all_completed : list task := take 2 sample_tasks.
Definition sample_none_completed : list task := take 2 (drop 2 sample_tasks).

(** A store that cannot be reached. *)
Definition sample_failing_find (q : query) : result (list task) :=
  Raise (PyException "ServerSelectionTimeoutError" "localhost:27017: connection refused").

(** A window that does not fit the calendar. *)
Definition sample_failing_sub_days (d : datetime) (n : Z) : result datetime :=
  Raise (PyException "OverflowError" "date value out of range").

(** * Facts about the binary64 operations *)

Section FloatFacts.

Lemma digits2_pos_size p : digits2_pos p = Pos.size p.
Proof. induction p; simpl; congruence. Qed.

Lemma Zdigits2_log2 m : 0 < m -> Zdigits2 m = Z.log2 m + 1.
Proof.
destruct m as [|p|p]; try lia. intros _. simpl.
rewrite digits2_pos_size. destruct p; simpl; lia.
Qed.

Lemma Zdigits2_nonneg m : 0 <= Zdigits2 m.
Proof. destruct m; simpl; lia. Qed.

Lemma Zdigits2_mono m n : 0 <= m <= n -> Zdigits2 m <= Zdigits2 n.
Proof.
intros [H1 H2]. destruct (Z.eq_dec m 0) as [->|Hm].
- apply Zdigits2_nonneg.
- rewrite !Zdigits2_log2 by lia. pose proof (Z.log2_le_mono m n H2). lia.
Qed.

Lemma Zdigits2_succ m : 0 <= m -> Zdigits2 (m + 1) <= Zdigits2 m + 1.
Proof.
intros Hm. destruct (Z.eq_dec m 0) as [->|Hne]; [simpl; lia|].
rewrite !Zdigits2_log2 by lia.
pose proof (Z.log2_succ_le m). replace (m + 1) with (Z.succ m) by lia. lia.
Qed.

Lemma shr_1_m r :
0 <= shr_m r ->
0 <= shr_m (shr_1 r) /\
(shr_m (shr_1 r) = 0 \/ Zdigits2 (shr_m (shr_1 r)) + 1 = Zdigits2 (shr_m r)).
Proof.
destruct r as [m rb sb]. simpl. intros Hm.
destruct m as [|[p|p|]|p]; simpl; try lia.
Qed.

Lemma iter_shr_1_m p : forall r,
0 <= shr_m r ->
0 <= shr_m (SpecFloat.iter_pos shr_1 p r) /\
(shr_m (SpecFloat.iter_pos shr_1 p r) = 0 \/
 Zdigits2 (shr_m (SpecFloat.iter_pos shr_1 p r)) + Zpos p = Zdigits2 (shr_m r)).
Proof.
induction p as [p IH|p IH|]; intros r Hr; simpl.
- destruct (shr_1_m r Hr) as [H0 H1].
  destruct (IH _ H0) as [H2 H3]. destruct (IH _ H2) as [H4 H5].
  split; [exact H4|].
  pose proof (Zdigits2_nonneg (shr_m (SpecFloat.iter_pos shr_1 p (SpecFloat.iter_pos shr_1 p (shr_1 r))))).
  destruct H5 as [H5|H5]; [now left|].
  destruct H3 as [H3|H3]; [rewrite H3 in H5; simpl in H5; lia|].
  destruct H1 as [H1|H1]; [rewrite H1 in H3; simpl in H3; lia|].
  right. lia.
- destruct (IH _ Hr) as [H2 H3]. destruct (IH _ H2) as [H4 H5].
  split; [exact H4|].
  pose proof (Zdigits2_nonneg (shr_m (SpecFloat.iter_pos shr_1 p (SpecFloat.iter_pos shr_1 p r)))).
  destruct H5 as [H5|H5]; [now left|].
  destruct H3 as [H3|H3]; [rewrite H3 in H5; simpl in H5; lia|].
  right. lia.
- apply shr_1_m, Hr.
Qed.

Lemma shr_record_of_loc_m m l : shr_m (shr_record_of_loc m l) = m.
Proof. destruct l as [|[]]; reflexivity. Qed.

(** One [shr_fexp] step never increases [digits + exponent], keeps the
  mantissa non-negative and leaves an exponent that is either the old one
  or [fexp] of the old magnitude. *)
Lemma shr_fexp_spec m e l :
0 <= m ->
let '(r, e') := shr_fexp prec emax m e l in
0 <= shr_m r /\
(shr_m r = 0 \/ Zdigits2 (shr_m r) + e' <= Zdigits2 m + e) /\
(e' = e \/ e' = fexp prec emax (Zdigits2 m + e)).
Proof.
intros Hm. unfold shr_fexp, shr.
destruct (fexp prec emax (Zdigits2 m + e) - e) as [|n|n] eqn:En.
- rewrite shr_record_of_loc_m. repeat split; auto. right; lia.
- pose proof (iter_shr_1_m n (shr_record_of_loc m l)) as H.
  rewrite shr_record_of_loc_m in H. destruct (H Hm) as [H1 H2].
  repeat split; auto.
  + destruct H2 as [H2|H2]; [now left|right; lia].
  + right. lia.
- rewrite shr_record_of_loc_m. repeat split; auto. right; lia.
Qed.

Lemma round_nearest_even_bounds m l :
0 <= m -> m <= round_nearest_even m l <= m + 1.
Proof.
intros Hm. unfold round_nearest_even.
destruct l as [|[]]; try lia. destruct (Z.even m); lia.
Qed.

(** Rounding a non-negative mantissa whose magnitude stays below [2^1023]
  yields a zero or a finite number: neither an infinity nor a NaN. *)
Lemma binary_round_aux_finite s m e l :
0 <= m -> e <= emax - prec ->
(m = 0 \/ Zdigits2 m + e <= 1023) ->
is_finite (binary_round_aux prec emax s m e l) = true.
Proof.
intros Hm He Hd. unfold binary_round_aux.
pose proof (shr_fexp_spec m e l Hm) as H1.
destruct (shr_fexp prec emax m e l) as [r1 e1].
destruct H1 as (H1a & H1b & H1c).
pose proof (round_nearest_even_bounds (shr_m r1) (loc_of_shr_record r1) H1a) as Hr.
set (m2 := round_nearest_even (shr_m r1) (loc_of_shr_record r1)) in *.
assert (Hm2 : 0 <= m2) by lia.
pose proof (shr_fexp_spec m2 e1 loc_Exact Hm2) as H2.
destruct (shr_fexp prec emax m2 e1 loc_Exact) as [r2 e2].
destruct H2 as (H2a & H2b & H2c).
assert (Hdm : Zdigits2 m + e <= 1023 \/ m = 0) by tauto.
assert (Hd0 : m = 0 -> Zdigits2 m = 0) by (intros ->; reflexivity).
assert (He1 : e1 <= emax - prec).
{ unfold fexp, emin, emax, prec in *. lia. }
assert (Hm2d : Zdigits2 m2 + e1 <= 1024).
{ assert (Zdigits2 m2 <= Zdigits2 (shr_m r1) + 1).
  { etransitivity; [apply (Zdigits2_mono m2 (shr_m r1 + 1)); lia|].
    apply Zdigits2_succ; lia. }
  destruct H1b as [H1b|H1b].
  - rewrite H1b in *. simpl in *. unfold emax, prec in *. lia.
  - unfold fexp, emin, emax, prec in *. lia. }
assert (He2 : e2 <= emax - prec).
{ unfold fexp, emin, emax, prec in *. lia. }
apply Z.leb_le in He2.
destruct (shr_m r2) as [|p|p] eqn:Er2; [reflexivity| |lia].
rewrite He2. reflexivity.
Qed.

Lemma int_quotient_finite a b :
0 <= a -> 0 < b -> Z.log2 a <= Z.log2 b + 1021 ->
is_finite (int_quotient a b) = true.
Proof.
intros Ha Hb Hlog. unfold int_quotient.
destruct a as [|pa|pa]; [|clear Ha|lia].
{ destruct b; try lia; reflexivity. }
destruct b as [|pb|pb]; try lia. clear Hb.
cbn [Z2SF SFdiv]. unfold SFdiv_core_binary.
set (e' := Z.min _ _).
set (m' := match 0 - 0 - e' with Z0 => Z.pos pa | Zpos _ => _ | Zneg _ => 0 end).
assert (He' : e' <= 0) by (subst e'; lia).
assert (Hm' : m' = Z.pos pa * 2 ^ (- e')).
{ subst m'. replace (0 - 0 - e') with (- e') by lia.
  destruct (- e') as [|n|n] eqn:En; [lia| |lia].
  rewrite Z.shiftl_mul_pow2 by lia. reflexivity. }
clearbody m' e'.
pose proof (Z_div_mod m' (Z.pos pb) eq_refl) as Hdiv.
destruct (Z.div_eucl m' (Z.pos pb)) as [q r]. destruct Hdiv as [Hq Hr].
assert (Hpow : 0 < 2 ^ (- e')) by (apply Z.pow_pos_nonneg; lia).
assert (Hq0 : 0 <= q) by nia.
apply binary_round_aux_finite; [exact Hq0|unfold emax, prec; lia|].
destruct (Z.eq_dec q 0) as [->|Hqne]; [now left|right].
rewrite Zdigits2_log2 by lia.
assert (Hle : q * Z.pos pb <= m') by lia.
pose proof (Z.log2_le_mono _ _ Hle) as H1.
pose proof (Z.log2_mul_below q (Z.pos pb) ltac:(lia) ltac:(lia)) as H2.
rewrite Hm' in H1.
rewrite <- Z.shiftl_mul_pow2 in H1 by lia.
rewrite Z.log2_shiftl in H1 by lia.
lia.
Qed.

Lemma int_truediv_Ok a b :
0 <= a -> 0 < b -> Z.log2 a <= Z.log2 b + 1021 ->
int_truediv a b = Ok (int_quotient a b).
Proof.
intros Ha Hb Hlog. unfold int_truediv.
destruct (Z.eqb_spec b 0) as [->|_]; [lia|].
now rewrite int_quotient_finite.
Qed.

Lemma int_truediv_le a b :
0 <= a <= b -> 0 < b -> int_truediv a b = Ok (int_quotient a b).
Proof.
intros [Ha Hab] Hb. apply int_truediv_Ok; try lia.
pose proof (Z.log2_le_mono a b Hab). lia.
Qed.

End FloatFacts.

Lemma float_of_int_100 : float_of_int 100 = Ok f100.
Proof. reflexivity. Qed.

Lemma percentage_Ok c t :
  0 <= c <= t ->
  percentage c t =
    Ok (if 0 <? t then PyFloat (rounded_percentage c t) else PyInt 0).
Proof.
  intros Hct. unfold percentage, rounded_percentage.
  destruct (Z.ltb_spec 0 t) as [Ht|Ht]; [|reflexivity].
  rewrite int_truediv_le by lia. cbn [result_bind].
  unfold float_mul_int. rewrite float_of_int_100. reflexivity.
Qed.

Lemma per_day_Ok n days :
  0 <= n <= PY_SSIZE_T_MAX ->
  per_day n days =
    Ok (if 0 <? days then PyFloat (rounded_ratio n days) else PyInt 0).
Proof.
  intros Hn. unfold per_day, rounded_ratio.
  destruct (Z.ltb_spec 0 days) as [Hd|Hd]; [|reflexivity].
  rewrite int_truediv_Ok; [reflexivity|lia|lia|].
  assert (Z.log2 n <= Z.log2 PY_SSIZE_T_MAX) by (apply Z.log2_le_mono; lia).
  assert (0 <= Z.log2 days) by apply Z.log2_nonneg.
  change (Z.log2 PY_SSIZE_T_MAX) with 62 in *. lia.
Qed.

(** * Facts about counting *)

Section Counting.
Context {A : Type}.
Implicit Types (p : A -> bool) (l : list A).

Lemma sum_1_if_acc p l acc :
  fold_left (fun acc x => if p x then acc + 1 else acc) l acc
  = acc + count_if p l.
Proof.
  revert acc. unfold count_if, len.
  induction l as [|x l IH]; intros acc; simpl; [lia|].
  rewrite IH. destruct (p x); simpl length; lia.
Qed.

Lemma sum_1_if_count p l : sum_1_if p l = count_if p l.
Proof. unfold sum_1_if. rewrite sum_1_if_acc. lia. Qed.

Lemma count_if_nil p : count_if p [] = 0.
Proof. reflexivity. Qed.

Lemma count_if_cons p x l :
  count_if p (x :: l) = (if p x then 1 else 0) + count_if p l.
Proof. unfold count_if, len. simpl. destruct (p x); simpl length; lia. Qed.

Lemma count_if_app p l1 l2 :
  count_if p (l1 ++ l2) = count_if p l1 + count_if p l2.
Proof.
  unfold count_if, len. rewrite List.filter_app, length_app. lia.
Qed.

Lemma count_if_bounds p l : 0 <= count_if p l <= len l.
Proof.
  induction l as [|x l IH]; [unfold count_if, len; simpl; lia|].
  rewrite count_if_cons. unfold len in *. simpl length.
  destruct (p x); lia.
Qed.

Lemma count_if_ext p q l :
  (forall x, p x = q x) -> count_if p l = count_if q l.
Proof.
  intros H. induction l as [|x l IH]; [reflexivity|].
  rewrite !count_if_cons, IH, H. reflexivity.
Qed.

(** Disjoint predicates count disjoint sets of records. *)
Lemma count_if_disjoint3 p1 p2 p3 l :
  (forall x, (if p1 x then 1 else 0) + (if p2 x then 1 else 0)
             + (if p3 x then 1 else 0) <= 1) ->
  count_if p1 l + count_if p2 l + count_if p3 l <= len l.
Proof.
  intros H. induction l as [|x l IH]; [unfold count_if, len; simpl; lia|].
  rewrite !count_if_cons. specialize (H x).
  unfold len in *. simpl length. lia.
Qed.

Lemma count_if_partition3 p1 p2 p3 l :
  Forall (fun x => (if p1 x then 1 else 0) + (if p2 x then 1 else 0)
                   + (if p3 x then 1 else 0) = 1) l ->
  count_if p1 l + count_if p2 l + count_if p3 l = len l.
Proof.
  induction 1 as [|x l Hx _ IH]; [unfold count_if, len; simpl; lia|].
  rewrite !count_if_cons. unfold len in *. simpl length. lia.
Qed.

End Counting.

(** * The Statistics Aggregator *)

(** The general path never raises, and this is what it returns. *)
Lemma tally_statistics_Ok user_id tasks :
  tally_statistics user_id tasks =
    Ok {| us_success := true;
          us_user_id := user_id;
          total_tasks := len tasks;
          completed_tasks := count_if (is_status "Completed") tasks;
          pending_tasks := count_if (is_status "Todo") tasks;
          in_progress_tasks := count_if (is_status "In Progress") tasks;
          completion_rate :=
            if 0 <? len tasks
            then PyFloat (rounded_percentage
                            (count_if (is_status "Completed") tasks) (len tasks))
            else PyInt 0;
          priority_distribution :=
            dict3 "Low" (count_if (is_priority "Low") tasks)
                  "Medium" (count_if (is_priority "Medium") tasks)
                  "High" (count_if (is_priority "High") tasks);
          status_distribution :=
            dict3 "Todo" (count_if (is_status "Todo") tasks)
                  "In Progress" (count_if (is_status "In Progress") tasks)
                  "Completed" (count_if (is_status "Completed") tasks) |}.
Proof.
  unfold tally_statistics. rewrite !sum_1_if_count.
  rewrite percentage_Ok by apply count_if_bounds.
  reflexivity.
Qed.

Lemma len_cons_pos {A} (x : A) l : (0 <? len (x :: l)) = true.
Proof. apply Z.ltb_lt. unfold len. simpl length. lia. Qed.

Lemma statistics_aggregator_Ok user_id tasks :
  exists r, statistics_aggregator user_id tasks = Ok r
    /\ total_tasks r = len tasks
    /\ completed_tasks r = count_if (is_status "Completed") tasks
    /\ pending_tasks r = count_if (is_status "Todo") tasks
    /\ in_progress_tasks r = count_if (is_status "In Progress") tasks
    /\ priority_distribution r =
         dict3 "Low" (count_if (is_priority "Low") tasks)
               "Medium" (count_if (is_priority "Medium") tasks)
               "High" (count_if (is_priority "High") tasks)
    /\ status_distribution r =
         dict3 "Todo" (count_if (is_status "Todo") tasks)
               "In Progress" (count_if (is_status "In Progress") tasks)
               "Completed" (count_if (is_status "Completed") tasks).
Proof.
  destruct tasks as [|t tasks].
  - eexists. split; [reflexivity|]. repeat split.
  - cbn [statistics_aggregator]. rewrite tally_statistics_Ok.
    eexists. split; [reflexivity|]. repeat split.
Qed.

Lemma status_buckets_exclusive (t : task) :
  (if is_status "Completed" t then 1 else 0)
  + (if is_status "Todo" t then 1 else 0)
  + (if is_status "In Progress" t then 1 else 0) <= 1.
Proof.
  unfold is_status, py_eq_str. destruct (status t); try lia.
  repeat case_bool_decide; subst; try lia; discriminate.
Qed.

Lemma priority_buckets_cover (t : task) :
  recognized_priority t = true ->
  (if is_priority "Low" t then 1 else 0)
  + (if is_priority "Medium" t then 1 else 0)
  + (if is_priority "High" t then 1 else 0) = 1.
Proof.
  unfold recognized_priority, is_priority, py_eq_str.
  destruct (priority t); try discriminate.
  repeat case_bool_decide; subst; simpl; try lia; discriminate.
Qed.

(** C1. For a non-empty list the completion rate is the float
    [round(completed / total * 100, 2)], where [completed] is the number of
    records whose status is Completed and [total] the length of the list;
    for the empty list it is the int [0].  The aggregator raises nothing in
    either case. *)
Theorem completion_rate_spec (user_id : string) (tasks : list task) :
  exists r, statistics_aggregator user_id tasks = Ok r
    /\ total_tasks r = len tasks
    /\ completed_tasks r = count_if (is_status "Completed") tasks
    /\ completion_rate r =
         match tasks with
         | [] => PyInt 0
         | _ :: _ =>
             PyFloat (rounded_percentage (completed_tasks r) (total_tasks r))
         end.
Proof.
  destruct tasks as [|t tasks].
  - eexists. split; [reflexivity|]. repeat split.
  - cbn [statistics_aggregator]. rewrite tally_statistics_Ok.
    eexists. split; [reflexivity|]. cbn [total_tasks completed_tasks completion_rate].
    rewrite len_cons_pos. repeat split.
Qed.

(** C2. On the empty list the aggregator returns the fixed all-zero
    object: every count is 0, the rate is the int 0, and each of the six
    keys Low, Medium, High, Todo, In Progress, Completed is present with
    value 0 (the two distributions hold nothing else); the general tally
    path returns the same object on the empty list. *)
Theorem empty_statistics_spec (user_id : string) :
  let r := empty_statistics user_id in
  statistics_aggregator user_id [] = Ok r
  /\ total_tasks r = 0
  /\ completed_tasks r = 0
  /\ pending_tasks r = 0
  /\ in_progress_tasks r = 0
  /\ completion_rate r = PyInt 0
  /\ priority_distribution r !! "Low" = Some 0
  /\ priority_distribution r !! "Medium" = Some 0
  /\ priority_distribution r !! "High" = Some 0
  /\ status_distribution r !! "Todo" = Some 0
  /\ status_distribution r !! "In Progress" = Some 0
  /\ status_distribution r !! "Completed" = Some 0
  /\ map_to_list (priority_distribution r)
       ≡ₚ [("Low", 0); ("Medium", 0); ("High", 0)]
  /\ map_to_list (status_distribution r)
       ≡ₚ [("Todo", 0); ("In Progress", 0); ("Completed", 0)]
  /\ tally_statistics user_id [] = Ok r.
Proof.
  intros r. subst r.
  assert (Hperm : forall (x y z : string * Z), [z; y; x] ≡ₚ [x; y; z]).
  { intros x y z. apply Permutation_sym, (Permutation_rev [x; y; z]). }
  repeat split; try reflexivity.
  - cbn [empty_statistics priority_distribution]. unfold dict3.
    rewrite !map_to_list_insert, map_to_list_empty by (by simplify_map_eq).
    apply Hperm.
  - cbn [empty_statistics status_distribution]. unfold dict3.
    rewrite !map_to_list_insert, map_to_list_empty by (by simplify_map_eq).
    apply Hperm.
Qed.

(** C3. The three status counts never exceed the total, and when every
    record carries one of the priorities Low, Medium, High the three
    priority counts add up to the total. *)
Theorem statistics_counts_invariant (user_id : string) (tasks : list task) :
  exists r, statistics_aggregator user_id tasks = Ok r
    /\ completed_tasks r + pending_tasks r + in_progress_tasks r <= total_tasks r
    /\ (Forall (fun t => recognized_priority t = true) tasks ->
        exists low medium high,
          priority_distribution r = dict3 "Low" low "Medium" medium "High" high
          /\ low + medium + high = total_tasks r).
Proof.
  destruct (statistics_aggregator_Ok user_id tasks)
    as (r & Hr & Htot & Hc & Hp & Hi & Hprio & _).
  exists r. split; [exact Hr|]. split.
  - rewrite Htot, Hc, Hp, Hi.
    apply count_if_disjoint3. intros t. apply status_buckets_exclusive.
  - intros Hall. do 3 eexists. split; [exact Hprio|].
    rewrite Htot. apply count_if_partition3.
    eapply Forall_impl; [exact Hall|]. apply priority_buckets_cover.
Qed.

Lemma unrecognized_status_buckets (t : task) :
  recognized_status t = false ->
  is_status "Todo" t = false /\ is_status "In Progress" t = false
  /\ is_status "Completed" t = false.
Proof.
  unfold recognized_status.
  destruct (is_status "Todo" t), (is_status "In Progress" t),
    (is_status "Completed" t); simpl; intros; try discriminate; auto.
Qed.

Lemma unrecognized_priority_buckets (t : task) :
  recognized_priority t = false ->
  is_priority "Low" t = false /\ is_priority "Medium" t = false
  /\ is_priority "High" t = false.
Proof.
  unfold recognized_priority.
  destruct (is_priority "Low" t), (is_priority "Medium" t),
    (is_priority "High" t); simpl; intros; try discriminate; auto.
Qed.

Lemma count_if_insert {A} (p : A -> bool) pre x post :
  count_if p (pre ++ x :: post)
  = count_if p (pre ++ post) + (if p x then 1 else 0).
Proof. rewrite !count_if_app, count_if_cons. lia. Qed.

(** C9. Adding to a list a record whose status is missing or unknown
    raises the total by one and leaves the three status counts and the
    status distribution as they were; a record whose priority is missing or
    unknown likewise leaves the priority distribution as it was.  Neither
    makes the aggregator raise. *)
Theorem unrecognized_values_not_counted
    (user_id : string) (pre post : list task) (t : task) :
  exists r r',
    statistics_aggregator user_id (pre ++ t :: post) = Ok r
    /\ statistics_aggregator user_id (pre ++ post) = Ok r'
    /\ total_tasks r = total_tasks r' + 1
    /\ (recognized_status t = false ->
        completed_tasks r = completed_tasks r'
        /\ pending_tasks r = pending_tasks r'
        /\ in_progress_tasks r = in_progress_tasks r'
        /\ status_distribution r = status_distribution r')
    /\ (recognized_priority t = false ->
        priority_distribution r = priority_distribution r').
Proof.
  destruct (statistics_aggregator_Ok user_id (pre ++ t :: post))
    as (r & Hr & Htot & Hc & Hp & Hi & Hprio & Hstat).
  destruct (statistics_aggregator_Ok user_id (pre ++ post))
    as (r' & Hr' & Htot' & Hc' & Hp' & Hi' & Hprio' & Hstat').
  exists r, r'. split; [exact Hr|]. split; [exact Hr'|]. split.
  - rewrite Htot, Htot'. unfold len. rewrite !length_app. simpl length. lia.
  - split.
    + intros Hun. apply unrecognized_status_buckets in Hun as (H1 & H2 & H3).
      rewrite Hc, Hp, Hi, Hstat, Hc', Hp', Hi', Hstat'.
      rewrite !count_if_insert, H1, H2, H3, !Z.add_0_r. auto.
    + intros Hun. apply unrecognized_priority_buckets in Hun as (H1 & H2 & H3).
      rewrite Hprio, Hprio'.
      rewrite !count_if_insert, H1, H2, H3, !Z.add_0_r. reflexivity.
Qed.

(** * The Productivity Analyzer *)

(** ** The order of timestamps *)

Lemma lex_Eq_r c : lex c Eq = c.
Proof. destruct c; reflexivity. Qed.

Lemma datetime_cmp_fields a b :
  datetime_cmp a b = fields_cmp (datetime_fields a) (datetime_fields b).
Proof.
  unfold datetime_cmp, datetime_fields. cbn [fields_cmp].
  rewrite lex_Eq_r. reflexivity.
Qed.

Lemma fields_cmp_lt_le_trans l1 : forall l2 l3,
  fields_cmp l1 l2 = Lt -> fields_cmp l2 l3 <> Gt -> fields_cmp l1 l3 = Lt.
Proof.
  induction l1 as [|x l1 IH]; intros [|y l2] [|z l3]; cbn [fields_cmp];
    try congruence.
  destruct (Z.compare_spec x y), (Z.compare_spec y z); cbn [lex];
    try congruence; intros H12 H23.
  - subst. rewrite Z.compare_refl. cbn [lex]. by eapply IH.
  - subst. apply Z.compare_lt_iff in H0 as ->. reflexivity.
  - subst. apply Z.compare_lt_iff in H as ->. reflexivity.
  - assert (x < z) as ->%Z.compare_lt_iff by lia. reflexivity.
Qed.

Lemma datetime_lt_le_trans a b c :
  datetime_lt a b = true -> datetime_le b c -> datetime_lt a c = true.
Proof.
  unfold datetime_lt, datetime_le. rewrite !datetime_cmp_fields.
  intros Hab Hbc.
  rewrite (fields_cmp_lt_le_trans _ (datetime_fields b)); [reflexivity| |exact Hbc].
  destruct (fields_cmp (datetime_fields a) (datetime_fields b));
    [discriminate|reflexivity|discriminate].
Qed.

Section AnalyzerFacts.

Variable clock : nat -> datetime.

(** The overdue scan always finishes with a count; it reads the clock but
    sends nothing to the store. *)
Lemma overdue_sum_run tasks : forall acc w,
  exists n k,
    overdue_sum clock tasks acc w
      = (Ok n, {| clock_reads := clock_reads w + k; fetches := fetches w |})
    /\ acc <= n <= acc + len tasks.
Proof.
  induction tasks as [|t tasks IH]; intros acc w; cbn [overdue_sum].
  - exists acc, 0%nat. unfold ret. rewrite Nat.add_0_r.
    destruct w; unfold len; simpl. split; [reflexivity|lia].
  - assert (Hlen : len (t :: tasks) = len tasks + 1)
      by (unfold len; simpl length; lia).
    destruct (negb (is_status "Completed" t)).
    + destruct (dueDate t) as [due|].
      * unfold bind, datetime_now.
        set (w1 := {| clock_reads := S (clock_reads w); fetches := fetches w |}).
        set (acc1 := if datetime_lt due (clock (clock_reads w))
                     then acc + 1 else acc).
        destruct (IH acc1 w1) as (n & k & Hrun & Hn).
        exists n, (S k). rewrite Hrun. subst w1; simpl.
        split; [do 2 f_equal; f_equal; lia|].
        subst acc1. destruct (datetime_lt _ _); lia.
      * destruct (IH acc w) as (n & k & Hrun & Hn).
        exists n, k. split; [exact Hrun|lia].
    + destruct (IH acc w) as (n & k & Hrun & Hn).
      exists n, k. split; [exact Hrun|lia].
Qed.

(** While the clock stands at [now], the scan counts the records that
    are overdue at [now]. *)
Lemma overdue_sum_frozen now tasks : forall acc w,
  (forall k, (clock_reads w <= k)%nat -> clock k = now) ->
  exists k,
    overdue_sum clock tasks acc w
      = (Ok (acc + count_if (is_overdue now) tasks),
         {| clock_reads := clock_reads w + k; fetches := fetches w |}).
Proof.
  induction tasks as [|t tasks IH]; intros acc w Hclock; cbn [overdue_sum].
  - exists 0%nat. unfold ret. rewrite Nat.add_0_r, count_if_nil, Z.add_0_r.
    destruct w; reflexivity.
  - rewrite count_if_cons. unfold is_overdue at 1.
    destruct (negb (is_status "Completed" t)); cbn [andb].
    + destruct (dueDate t) as [due|].
      * unfold bind, datetime_now.
        rewrite (Hclock (clock_reads w)) by lia.
        set (w1 := {| clock_reads := S (clock_reads w); fetches := fetches w |}).
        destruct (IH (if datetime_lt due now then acc + 1 else acc) w1)
          as (k & Hrun).
        { intros j Hj. apply Hclock. subst w1; simpl in Hj. lia. }
        exists (S k). rewrite Hrun. subst w1; simpl.
        rewrite Nat.add_succ_r.
        replace (acc + ((if datetime_lt due now then 1 else 0)
                        + count_if (is_overdue now) tasks))
          with ((if datetime_lt due now then acc + 1 else acc)
                + count_if (is_overdue now) tasks)
          by (destruct (datetime_lt due now); lia).
        reflexivity.
      * destruct (IH acc w Hclock) as (k & Hrun).
        exists k. rewrite Hrun. reflexivity.
    + destruct (IH acc w Hclock) as (k & Hrun).
      exists k. rewrite Hrun. reflexivity.
Qed.

(** While the clock moves between [lo] and [hi], the scan counts at least
    the records overdue at [lo] and at most those overdue at [hi]. *)
Lemma overdue_sum_between lo hi tasks : forall acc w,
  (forall k, (clock_reads w <= k)%nat ->
             datetime_le lo (clock k) /\ datetime_le (clock k) hi) ->
  exists n k,
    overdue_sum clock tasks acc w
      = (Ok n, {| clock_reads := clock_reads w + k; fetches := fetches w |})
    /\ acc + count_if (is_overdue lo) tasks <= n
         <= acc + count_if (is_overdue hi) tasks.
Proof.
  induction tasks as [|t tasks IH]; intros acc w Hclock; cbn [overdue_sum].
  - exists acc, 0%nat. unfold ret. rewrite Nat.add_0_r, !count_if_nil.
    destruct w. split; [reflexivity|lia].
  - rewrite !count_if_cons. unfold is_overdue at 1 3.
    destruct (negb (is_status "Completed" t)); cbn [andb].
    + destruct (dueDate t) as [due|].
      * unfold bind, datetime_now.
        destruct (Hclock (clock_reads w)) as [Hlo Hhi]; [lia|].
        set (now := clock (clock_reads w)) in *.
        set (w1 := {| clock_reads := S (clock_reads w); fetches := fetches w |}).
        destruct (IH (if datetime_lt due now then acc + 1 else acc) w1)
          as (n & k & Hrun & Hn).
        { intros j Hj. apply Hclock. subst w1; simpl in Hj. lia. }
        exists n, (S k). rewrite Hrun. subst w1; simpl.
        rewrite Nat.add_succ_r. split; [reflexivity|].
        pose proof (datetime_lt_le_trans due lo now) as Hlow.
        pose proof (datetime_lt_le_trans due now hi) as Hup.
        destruct (datetime_lt due lo), (datetime_lt due now),
          (datetime_lt due hi); try lia;
          first [ specialize (Hlow eq_refl Hlo); discriminate
                | specialize (Hup eq_refl Hhi); discriminate ].
      * destruct (IH acc w Hclock) as (n & k & Hrun & Hn).
        exists n, k. split; [exact Hrun|lia].
    + destruct (IH acc w Hclock) as (n & k & Hrun & Hn).
      exists n, k. split; [exact Hrun|lia].
Qed.

(** On a list that fits in memory the analyzer returns this object. *)
Lemma productivity_analyzer_run user_id days window_start window_end tasks w :
  len tasks <= PY_SSIZE_T_MAX ->
  exists n w',
    overdue_sum clock tasks 0 w = (Ok n, w')
    /\ fetches w' = fetches w
    /\ productivity_analyzer clock user_id days window_start window_end tasks w
       = (Ok {| pa_success := true;
                pa_user_id := user_id;
                period_days := days;
                start_date := isoformat window_start;
                end_date := isoformat window_end;
                total_tasks_created := len tasks;
                total_tasks_completed := count_if (is_status "Completed") tasks;
                overdue_tasks := n;
                avg_tasks_per_day :=
                  if 0 <? days then PyFloat (rounded_ratio (len tasks) days)
                  else PyInt 0;
                avg_completions_per_day :=
                  if 0 <? days
                  then PyFloat (rounded_ratio
                                  (count_if (is_status "Completed") tasks) days)
                  else PyInt 0;
                daily_completion_trend :=
                  trend_of (daily_completions_of
                              (List.filter (is_status "Completed") tasks));
                productivity_score :=
                  if 0 <? len tasks
                  then PyFloat (rounded_percentage
                                  (count_if (is_status "Completed") tasks)
                                  (len tasks))
                  else PyInt 0 |}, w').
Proof.
  intros Hlen.
  pose proof (count_if_bounds (is_status "Completed") tasks) as Hc.
  assert (0 <= len tasks) by (unfold len; lia).
  destruct (overdue_sum_run tasks 0 w) as (n & k & Hrun & _).
  eexists n, _. split; [exact Hrun|]. split; [reflexivity|].
  unfold productivity_analyzer, bind, lift.
  fold (count_if (is_status "Completed") tasks).
  rewrite !per_day_Ok by lia. rewrite Hrun.
  rewrite percentage_Ok by lia. reflexivity.
Qed.

End AnalyzerFacts.

(** ** The per-day dictionary *)

Lemma record_completion_lookup (m : gmap string Z) t k :
  record_completion m t !! k
  = if created_on k t then Some (default 0 (m !! k) + 1) else m !! k.
Proof.
  unfold record_completion, created_on.
  destruct (createdAt t) as [d|]; [|reflexivity].
  case_bool_decide as Hk.
  - subst k. apply lookup_insert_eq.
  - apply lookup_insert_ne, Hk.
Qed.

Lemma fold_record_completion_lookup l : forall (m : gmap string Z) k,
  fold_left record_completion l m !! k
  = if count_if (created_on k) l =? 0 then m !! k
    else Some (default 0 (m !! k) + count_if (created_on k) l).
Proof.
  induction l as [|t l IH]; intros m k; [reflexivity|].
  cbn [fold_left]. rewrite IH, record_completion_lookup, count_if_cons.
  pose proof (count_if_bounds (created_on k) l) as Hb.
  destruct (created_on k t).
  - destruct (Z.eqb_spec (count_if (created_on k) l) 0) as [E|E];
      destruct (Z.eqb_spec (1 + count_if (created_on k) l) 0); try lia.
    + rewrite E. reflexivity.
    + simpl. f_equal. lia.
  - rewrite Z.add_0_l. reflexivity.
Qed.

Lemma count_if_filter {A} (p q : A -> bool) l :
  count_if p (List.filter q l) = count_if (fun x => q x && p x) l.
Proof.
  induction l as [|x l IH]; [reflexivity|].
  cbn [List.filter]. rewrite count_if_cons. destruct (q x); cbn [andb].
  - rewrite count_if_cons, IH. reflexivity.
  - rewrite IH. lia.
Qed.

(** The dictionary holds, for each date string, the number of completed
    records created on that date, and holds no date with none. *)
Lemma daily_completions_lookup tasks k :
  daily_completions_of (List.filter (is_status "Completed") tasks) !! k
  = if count_if (completed_on k) tasks =? 0 then None
    else Some (count_if (completed_on k) tasks).
Proof.
  unfold daily_completions_of. rewrite fold_record_completion_lookup.
  rewrite count_if_filter. fold (completed_on k).
  rewrite lookup_empty. reflexivity.
Qed.

(** ** Sorting the items *)

Lemma string_le_ne_ltb (a b : string) :
  String.le a b -> a <> b -> String.ltb a b = true.
Proof.
  unfold String.le, String.leb, String.ltb. intros Hle Hne.
  destruct (String.compare a b) eqn:E; [|reflexivity|contradiction].
  apply String.compare_eq_iff in E. contradiction.
Qed.

#[local] Instance item_le_total : Total item_le.
Proof.
  intros [k1 v1] [k2 v2]. unfold item_le, item_leb. cbn [fst snd].
  destruct (decide (k1 = k2)) as [->|Hne].
  - rewrite decide_True by reflexivity.
    destruct (Z.le_gt_cases v1 v2); [left|right]; apply bool_decide_eq_true; lia.
  - rewrite decide_False by congruence.
    destruct (total String.le k1 k2); [left|right]; by apply bool_decide_eq_true.
Qed.

#[local] Instance item_le_trans : Transitive item_le.
Proof.
  intros [k1 v1] [k2 v2] [k3 v3]. unfold item_le, item_leb. cbn [fst snd].
  intros H12 H23.
  destruct (decide (k1 = k2)) as [->|N12].
  - destruct (decide (k2 = k3)) as [->|N23]; [|exact H23].
    apply bool_decide_eq_true in H12, H23. apply bool_decide_eq_true. lia.
  - apply bool_decide_eq_true in H12.
    destruct (decide (k2 = k3)) as [->|N23].
    + rewrite decide_False by congruence. by apply bool_decide_eq_true.
    + apply bool_decide_eq_true in H23.
      destruct (decide (k1 = k3)) as [->|N13].
      * exfalso. apply N12. by apply (anti_symm String.le).
      * apply bool_decide_eq_true. by etrans.
Qed.

Lemma item_le_key a b : item_le a b -> String.le a.1 b.1.
Proof.
  unfold item_le, item_leb. destruct (decide (a.1 = b.1)) as [->|_].
  - intros _. reflexivity.
  - apply bool_decide_eq_true.
Qed.

Lemma sorted_items_perm (d : gmap string Z) : sorted_items d ≡ₚ map_to_list d.
Proof. apply merge_sort_Permutation. Qed.

Lemma elem_of_sorted_items (d : gmap string Z) k v :
  (k, v) ∈ sorted_items d <-> d !! k = Some v.
Proof. rewrite sorted_items_perm. apply elem_of_map_to_list. Qed.

Lemma StronglySorted_keys_strict (l : list (string * Z)) :
  StronglySorted item_le l -> NoDup l.*1 ->
  StronglySorted (fun a b => String.ltb a.1 b.1 = true) l.
Proof.
  induction 1 as [|x l Hl IH Hx]; intros Hnd; [constructor|].
  rewrite fmap_cons in Hnd. apply NoDup_cons in Hnd as [Hnotin Hnd].
  constructor; [auto|].
  rewrite Forall_forall in Hx |- *. intros y Hy.
  apply string_le_ne_ltb; [apply item_le_key, Hx, Hy|].
  intros E. apply Hnotin. rewrite E. apply list_elem_of_fmap.
  exists y. split; [reflexivity|exact Hy].
Qed.

(** ** The trend sequence *)

Lemma trend_of_entries (d : gmap string Z) :
  trend_of d = entry_of_item <$> sorted_items d.
Proof.
  unfold trend_of. apply list_fmap_ext. intros _ [k v] _. reflexivity.
Qed.

Lemma trend_of_sorted (d : gmap string Z) : StronglySorted date_lt (trend_of d).
Proof.
  rewrite trend_of_entries.
  apply (StronglySorted_fmap entry_of_item
           (fun a b => String.ltb a.1 b.1 = true) date_lt).
  { intros x y H. exact H. }
  apply StronglySorted_keys_strict.
  - apply StronglySorted_merge_sort; apply _.
  - rewrite sorted_items_perm. apply NoDup_fst_map_to_list.
Qed.

Lemma elem_of_trend_of (d : gmap string Z) e :
  e ∈ trend_of d <-> d !! date e = Some (count e).
Proof.
  rewrite trend_of_entries, list_elem_of_fmap. split.
  - intros ([k v] & -> & Hin). by apply elem_of_sorted_items.
  - intros H. exists (date e, count e). split; [by destruct e|].
    by apply elem_of_sorted_items.
Qed.

Lemma sum_values_perm l l' : l ≡ₚ l' -> sum_values l = sum_values l'.
Proof.
  induction 1 as [|x l l' _ IH|x y l|l l' l'' _ IH1 _ IH2]; simpl; lia.
Qed.

Lemma sum_counts_trend_of (d : gmap string Z) :
  sum_counts (trend_of d) = sum_values (map_to_list d).
Proof.
  rewrite <- (sum_values_perm _ _ (sorted_items_perm d)), trend_of_entries.
  induction (sorted_items d) as [|x l IH]; [reflexivity|].
  rewrite fmap_cons. simpl. rewrite IH. reflexivity.
Qed.

Lemma sum_values_insert (m : gmap string Z) k v :
  sum_values (map_to_list (<[k := v]> m))
  = sum_values (map_to_list m) - default 0 (m !! k) + v.
Proof.
  destruct (m !! k) as [old|] eqn:E.
  - rewrite <- (sum_values_perm _ _ (map_to_list_delete m k old E)).
    rewrite <- insert_delete_eq.
    rewrite (sum_values_perm _ _
               (map_to_list_insert (delete k m) k v (lookup_delete_eq m k))).
    simpl. lia.
  - rewrite (sum_values_perm _ _ (map_to_list_insert m k v E)). simpl. lia.
Qed.

Lemma sum_values_record_completion (m : gmap string Z) t :
  sum_values (map_to_list (record_completion m t))
  = sum_values (map_to_list m) + (if has_createdAt t then 1 else 0).
Proof.
  unfold record_completion, has_createdAt.
  destruct (createdAt t) as [d|]; [|lia].
  rewrite sum_values_insert. lia.
Qed.

Lemma sum_values_fold l : forall m : gmap string Z,
  sum_values (map_to_list (fold_left record_completion l m))
  = sum_values (map_to_list m) + count_if has_createdAt l.
Proof.
  induction l as [|t l IH]; intros m; cbn [fold_left].
  - rewrite count_if_nil. lia.
  - rewrite IH, sum_values_record_completion, count_if_cons. lia.
Qed.

(** The counts of the trend add up to the number of completed records
    that have a creation timestamp. *)
Lemma sum_counts_daily tasks :
  sum_counts (trend_of (daily_completions_of
                          (List.filter (is_status "Completed") tasks)))
  = count_if (fun t => is_status "Completed" t && has_createdAt t) tasks.
Proof.
  rewrite sum_counts_trend_of. unfold daily_completions_of.
  rewrite sum_values_fold, map_to_list_empty, count_if_filter. reflexivity.
Qed.

(** An entry is in the trend exactly when its count is the number of
    completed records created on its date and that number is positive. *)
Lemma elem_of_daily_trend tasks e :
  e ∈ trend_of (daily_completions_of (List.filter (is_status "Completed") tasks))
  <-> 1 <= count e /\ count e = count_if (completed_on (date e)) tasks.
Proof.
  rewrite elem_of_trend_of, daily_completions_lookup.
  pose proof (count_if_bounds (completed_on (date e)) tasks) as Hb.
  destruct (Z.eqb_spec (count_if (completed_on (date e)) tasks) 0) as [E|E].
  - split; [discriminate|]. intros [H1 H2]. lia.
  - split.
    + intros [= H]. lia.
    + intros [_ H]. f_equal. lia.
Qed.

(** ** Date strings and calendar days *)

Lemma digit_char_inj a b :
  digit_char a = digit_char b -> a mod 10 = b mod 10.
Proof.
  unfold digit_char. intros H. apply (f_equal nat_of_ascii) in H.
  pose proof (Z.mod_pos_bound a 10 eq_refl).
  pose proof (Z.mod_pos_bound b 10 eq_refl).
  rewrite !nat_ascii_embedding in H by lia. lia.
Qed.

Lemma zpad2_inj a b :
  0 <= a < 100 -> 0 <= b < 100 -> zpad2 a = zpad2 b -> a = b.
Proof.
  intros Ha Hb H. unfold zpad2 in H. injection H as H1 H2.
  apply digit_char_inj in H1, H2.
  rewrite (Z.mod_small (a / 10)), (Z.mod_small (b / 10)) in H1
    by (split; [apply Z.div_pos; lia|apply Z.div_lt_upper_bound; lia]).
  rewrite (Z.div_mod a 10), (Z.div_mod b 10) by lia. lia.
Qed.

Lemma zpad4_inj a b :
  0 <= a < 10000 -> 0 <= b < 10000 -> zpad4 a = zpad4 b -> a = b.
Proof.
  intros Ha Hb H. unfold zpad4, zpad2 in H. injection H as H1 H2 H3 H4.
  apply digit_char_inj in H1, H2, H3, H4.
  pose proof (Z.div_mod a 10 ltac:(lia)).
  pose proof (Z.div_mod b 10 ltac:(lia)).
  pose proof (Z.div_mod (a / 10) 10 ltac:(lia)).
  pose proof (Z.div_mod (b / 10) 10 ltac:(lia)).
  pose proof (Z.div_mod (a / 100) 10 ltac:(lia)).
  pose proof (Z.div_mod (b / 100) 10 ltac:(lia)).
  assert (a / 10 / 10 = a / 100) by (rewrite Z.div_div by lia; reflexivity).
  assert (b / 10 / 10 = b / 100) by (rewrite Z.div_div by lia; reflexivity).
  assert (a / 100 / 10 = a / 1000) by (rewrite Z.div_div by lia; reflexivity).
  assert (b / 100 / 10 = b / 1000) by (rewrite Z.div_div by lia; reflexivity).
  assert (0 <= a / 1000 < 10)
    by (split; [apply Z.div_pos; lia|apply Z.div_lt_upper_bound; lia]).
  assert (0 <= b / 1000 < 10)
    by (split; [apply Z.div_pos; lia|apply Z.div_lt_upper_bound; lia]).
  rewrite (Z.mod_small (a / 1000)), (Z.mod_small (b / 1000)) in H1 by lia.
  lia.
Qed.

(** Two valid timestamps print the same date string only when they fall
    on the same calendar day. *)
Lemma strftime_Ymd_inj d1 d2 :
  datetime_wf d1 -> datetime_wf d2 ->
  strftime_Ymd d1 = strftime_Ymd d2 -> calendar_day d1 = calendar_day d2.
Proof.
  intros (Hy1 & Hm1 & Hd1) (Hy2 & Hm2 & Hd2) H.
  assert (Hsplit : zpad4 (year d1) = zpad4 (year d2)
                   /\ zpad2 (month d1) = zpad2 (month d2)
                   /\ zpad2 (day d1) = zpad2 (day d2)).
  { unfold strftime_Ymd in H. unfold zpad4, zpad2 in *.
    cbv [String.append] in H.
    injection H as E1 E2 E3 E4 E5 E6 E7 E8.
    rewrite E1, E2, E3, E4, E5, E6, E7, E8. auto. }
  destruct Hsplit as (Ey & Em & Ed).
  apply zpad4_inj in Ey; [|lia..].
  apply zpad2_inj in Em; [|lia..].
  apply zpad2_inj in Ed; [|lia..].
  unfold calendar_day. congruence.
Qed.

Lemma count_if_ext_in {A} (p q : A -> bool) l :
  Forall (fun x => p x = q x) l -> count_if p l = count_if q l.
Proof.
  induction 1 as [|x l Hx _ IH]; [reflexivity|].
  rewrite !count_if_cons, IH, Hx. reflexivity.
Qed.

Lemma count_if_pos_witness {A} (p : A -> bool) l :
  1 <= count_if p l -> exists x, x ∈ l /\ p x = true.
Proof.
  induction l as [|x l IH]; [rewrite count_if_nil; lia|].
  rewrite count_if_cons. destruct (p x) eqn:E.
  - intros _. exists x. split; [left|exact E].
  - intros H. destruct IH as (y & Hy & Hp); [lia|].
    exists y. split; [by right|exact Hp].
Qed.

(** On valid timestamps, counting by date string is counting by day. *)
Lemma completed_on_calendar_day tasks d :
  Forall task_wf tasks -> datetime_wf d ->
  count_if (completed_on (strftime_Ymd d)) tasks
  = count_if (completed_on_day (calendar_day d)) tasks.
Proof.
  intros Hwf Hd. apply count_if_ext_in.
  eapply Forall_impl; [exact Hwf|]. intros t Ht.
  unfold completed_on, completed_on_day, created_on, created_on_day, task_wf in *.
  destruct (createdAt t) as [c|]; [|reflexivity]. f_equal.
  apply bool_decide_ext. split.
  - intros E. by apply strftime_Ymd_inj.
  - unfold calendar_day, strftime_Ymd. intros [= -> -> ->]. reflexivity.
Qed.

Lemma count_if_and_le {A} (p q : A -> bool) l :
  count_if (fun x => p x && q x) l <= count_if p l.
Proof.
  induction l as [|x l IH]; [rewrite !count_if_nil; lia|].
  rewrite !count_if_cons. destruct (p x), (q x); simpl; lia.
Qed.

Lemma count_if_and_eq {A} (p q : A -> bool) l :
  count_if (fun x => p x && q x) l = count_if p l
  <-> Forall (fun x => p x = true -> q x = true) l.
Proof.
  induction l as [|x l IH].
  - split; [constructor|reflexivity].
  - rewrite !count_if_cons, Forall_cons.
    pose proof (count_if_and_le p q l) as Hle.
    destruct (p x) eqn:Hp, (q x) eqn:Hq; cbn [andb]; split.
    + intros H. split; [auto|]. apply IH. lia.
    + intros [_ H]. apply IH in H. lia.
    + intros H. lia.
    + intros [H _]. specialize (H eq_refl). discriminate.
    + intros H. split; [auto|]. apply IH. lia.
    + intros [_ H]. apply IH in H. lia.
    + intros H. split; [discriminate|]. apply IH. lia.
    + intros [_ H]. apply IH in H. lia.
Qed.

Lemma int_truediv_no_zero_division a b :
  b <> 0 -> int_truediv a b <> Raise ZeroDivisionError.
Proof.
  intros Hb. unfold int_truediv.
  destruct (Z.eqb_spec b 0) as [E|_]; [contradiction|].
  destruct (is_finite (int_quotient a b)); discriminate.
Qed.

Lemma per_day_no_zero_division n days :
  per_day n days <> Raise ZeroDivisionError.
Proof.
  unfold per_day. destruct (Z.ltb_spec 0 days) as [Hd|_]; [|discriminate].
  pose proof (int_truediv_no_zero_division n days ltac:(lia)) as H.
  destruct (int_truediv n days) as [q|e]; [discriminate|].
  cbn [result_bind]. intros [= ->]. by apply H.
Qed.

Lemma percentage_no_zero_division c t :
  percentage c t <> Raise ZeroDivisionError.
Proof.
  unfold percentage. destruct (Z.ltb_spec 0 t) as [Ht|_]; [|discriminate].
  pose proof (int_truediv_no_zero_division c t ltac:(lia)) as H.
  destruct (int_truediv c t) as [q|e].
  - cbn [result_bind]. unfold float_mul_int. rewrite float_of_int_100.
    discriminate.
  - cbn [result_bind]. intros [= ->]. by apply H.
Qed.

Section AnalyzerClaims.

Variable clock : nat -> datetime.

(** C4. The daily completion trend is strictly ascending by date string;
    it holds exactly the entries whose count is at least 1 and equals the
    number of completed records created on the entry's date, so no date
    appears with a zero count; and on valid timestamps the date of an
    entry is a calendar day and its count the number of completed records
    created on that day. *)
Theorem daily_completion_trend_spec
    (user_id : string) (days : Z) (window_start window_end : datetime)
    (tasks : list task) (w : world) :
  len tasks <= PY_SSIZE_T_MAX ->
  exists r w',
    productivity_analyzer clock user_id days window_start window_end tasks w
      = (Ok r, w')
    /\ StronglySorted date_lt (daily_completion_trend r)
    /\ (forall e, e ∈ daily_completion_trend r <->
          1 <= count e /\ count e = count_if (completed_on (date e)) tasks)
    /\ (Forall task_wf tasks ->
        Forall (fun e => exists d,
                  datetime_wf d /\ date e = strftime_Ymd d
                  /\ count e = count_if (completed_on_day (calendar_day d)) tasks)
               (daily_completion_trend r)).
Proof.
  intros Hlen.
  destruct (productivity_analyzer_run clock user_id days window_start
              window_end tasks w Hlen) as (n & w' & _ & _ & Hrun).
  eexists _, w'. split; [exact Hrun|].
  cbn [daily_completion_trend]. split; [apply trend_of_sorted|].
  split; [intros e; apply elem_of_daily_trend|].
  intros Hwf. apply Forall_forall. intros e He.
  apply elem_of_daily_trend in He as [Hpos Hcount].
  rewrite Hcount in Hpos.
  apply count_if_pos_witness in Hpos as (t & Ht & Hon).
  unfold completed_on, created_on in Hon.
  apply andb_true_iff in Hon as [_ Hon].
  pose proof (proj1 (Forall_forall _ _) Hwf t Ht) as Hd. unfold task_wf in Hd.
  destruct (createdAt t) as [d|]; [|discriminate].
  apply bool_decide_eq_true in Hon.
  exists d. split; [exact Hd|]. split; [by symmetry|].
  rewrite Hcount, <- Hon. by apply completed_on_calendar_day.
Qed.

(** C5. The productivity score is the float
    [round(completed / created * 100, 2)] when at least one record was
    created, and the int [0] when none was. *)
Theorem productivity_score_spec
    (user_id : string) (days : Z) (window_start window_end : datetime)
    (tasks : list task) (w : world) :
  len tasks <= PY_SSIZE_T_MAX ->
  exists r w',
    productivity_analyzer clock user_id days window_start window_end tasks w
      = (Ok r, w')
    /\ total_tasks_created r = len tasks
    /\ total_tasks_completed r = count_if (is_status "Completed") tasks
    /\ productivity_score r =
         if 0 <? total_tasks_created r
         then PyFloat (rounded_percentage (total_tasks_completed r)
                                          (total_tasks_created r))
         else PyInt 0.
Proof.
  intros Hlen.
  destruct (productivity_analyzer_run clock user_id days window_start
              window_end tasks w Hlen) as (n & w' & _ & _ & Hrun).
  eexists _, w'. split; [exact Hrun|]. repeat split.
Qed.

(** C6. While the clock stands at [now], the overdue count is the number
    of records of the input list that are not completed, have a due
    timestamp, and whose due timestamp is strictly before [now]. *)
Theorem overdue_tasks_spec
    (user_id : string) (days : Z) (window_start window_end : datetime)
    (tasks : list task) (w : world) (now : datetime) :
  len tasks <= PY_SSIZE_T_MAX ->
  (forall k, (clock_reads w <= k)%nat -> clock k = now) ->
  exists r w',
    productivity_analyzer clock user_id days window_start window_end tasks w
      = (Ok r, w')
    /\ overdue_tasks r = count_if (is_overdue now) tasks.
Proof.
  intros Hlen Hclock.
  destruct (productivity_analyzer_run clock user_id days window_start
              window_end tasks w Hlen) as (n & w' & Hsum & _ & Hrun).
  destruct (overdue_sum_frozen clock now tasks 0 w Hclock) as (k & Hfrozen).
  rewrite Hfrozen in Hsum. injection Hsum as Hn _.
  eexists _, w'. split; [exact Hrun|].
  cbn [overdue_tasks]. lia.
Qed.

(** C7. For every [days] and every list the analyzer raises no division
    by zero; it returns, and the two per-day averages are the floats
    [round(created / days, 2)] and [round(completed / days, 2)] when
    [days > 0] and the int [0] when [days <= 0]. *)
Theorem per_day_averages_spec
    (user_id : string) (days : Z) (window_start window_end : datetime)
    (tasks : list task) (w : world) :
  (productivity_analyzer clock user_id days window_start window_end tasks w).1
    <> Raise ZeroDivisionError
  /\ (len tasks <= PY_SSIZE_T_MAX ->
      exists r w',
        productivity_analyzer clock user_id days window_start window_end tasks w
          = (Ok r, w')
        /\ total_tasks_created r = len tasks
        /\ total_tasks_completed r = count_if (is_status "Completed") tasks
        /\ avg_tasks_per_day r =
             (if 0 <? days
              then PyFloat (rounded_ratio (total_tasks_created r) days)
              else PyInt 0)
        /\ avg_completions_per_day r =
             (if 0 <? days
              then PyFloat (rounded_ratio (total_tasks_completed r) days)
              else PyInt 0)).
Proof.
  split.
  - unfold productivity_analyzer, bind, lift, ret.
    pose proof (per_day_no_zero_division (len tasks) days) as H1.
    destruct (per_day (len tasks) days) as [a1|e1];
      [|cbn; intros [= ->]; by apply H1].
    match goal with
    | |- context [per_day ?n days] =>
        pose proof (per_day_no_zero_division n days) as H2;
        destruct (per_day n days) as [a2|e2];
          [|cbn; intros [= ->]; by apply H2]
    end.
    destruct (overdue_sum_run clock tasks 0 w) as (n & k & -> & _).
    match goal with
    | |- context [percentage ?c ?t] =>
        pose proof (percentage_no_zero_division c t) as H3;
        destruct (percentage c t) as [a3|e3];
          [discriminate|cbn; intros [= ->]; by apply H3]
    end.
  - intros Hlen.
    destruct (productivity_analyzer_run clock user_id days window_start
                window_end tasks w Hlen) as (n & w' & _ & _ & Hrun).
    eexists _, w'. split; [exact Hrun|]. repeat split.
Qed.

(** C10. The counts of the trend add up to the number of completed
    records that have a creation timestamp; this is at most
    [total_tasks_completed], and equal to it exactly when every completed
    record has a creation timestamp. *)
Theorem trend_sum_spec
    (user_id : string) (days : Z) (window_start window_end : datetime)
    (tasks : list task) (w : world) :
  len tasks <= PY_SSIZE_T_MAX ->
  exists r w',
    productivity_analyzer clock user_id days window_start window_end tasks w
      = (Ok r, w')
    /\ total_tasks_completed r = count_if (is_status "Completed") tasks
    /\ sum_counts (daily_completion_trend r)
       = count_if (fun t => is_status "Completed" t && has_createdAt t) tasks
    /\ sum_counts (daily_completion_trend r) <= total_tasks_completed r
    /\ (sum_counts (daily_completion_trend r) = total_tasks_completed r
        <-> Forall (fun t => is_status "Completed" t = true
                             -> has_createdAt t = true) tasks).
Proof.
  intros Hlen.
  destruct (productivity_analyzer_run clock user_id days window_start
              window_end tasks w Hlen) as (n & w' & _ & _ & Hrun).
  eexists _, w'. split; [exact Hrun|].
  cbn [daily_completion_trend total_tasks_completed].
  rewrite sum_counts_daily.
  split; [reflexivity|]. split; [reflexivity|].
  split; [apply count_if_and_le|apply count_if_and_eq].
Qed.

End AnalyzerClaims.

(** * The identifier validator and the handlers *)

Lemma bytes_fromhex_all_hex s :
  (Nat.even (String.length s) = true ->
   (is_Some (bytes_fromhex s) <->
    forallb (fun c => bool_decide (is_Some (hex_value c)))
            (list_ascii_of_string s) = true))
  /\ (forall c, Nat.even (String.length (String c s)) = true ->
      (is_Some (bytes_fromhex (String c s)) <->
       forallb (fun c => bool_decide (is_Some (hex_value c)))
               (list_ascii_of_string (String c s)) = true)).
Proof.
  induction s as [|c' s [IH1 IH2]].
  - split; [intros _; simpl; split; eauto|]. intros c H. discriminate.
  - split; [apply IH2|]. intros c H.
    change (Nat.even (String.length s) = true) in H. specialize (IH1 H).
    cbn [bytes_fromhex list_ascii_of_string forallb].
    rewrite !andb_true_iff, !bool_decide_eq_true, <- IH1.
    destruct (hex_value c), (hex_value c'), (bytes_fromhex s); split;
      try (intros [? ?]; discriminate); try (intros (? & ? & ?)); eauto;
      match goal with
      | H : is_Some None |- _ => destruct H; discriminate
      end.
Qed.

Lemma string_length_eqb_even s :
  (String.length s =? 24)%nat = true -> Nat.even (String.length s) = true.
Proof. intros H. apply Nat.eqb_eq in H. rewrite H. reflexivity. Qed.

Lemma ObjectId_of_str_well_formed s :
  well_formed_id s = true -> exists oid, ObjectId_of_str s = Ok oid.
Proof.
  unfold well_formed_id, ObjectId_of_str. intros H.
  apply andb_true_iff in H as [Hlen Hhex]. rewrite Hlen.
  apply (proj1 (bytes_fromhex_all_hex s) (string_length_eqb_even s Hlen)) in Hhex.
  destruct Hhex as [bs ->]. eauto.
Qed.

Lemma ObjectId_of_str_malformed s :
  well_formed_id s = false -> ObjectId_of_str s = Raise (InvalidId s).
Proof.
  unfold well_formed_id, ObjectId_of_str. intros H.
  destruct (String.length s =? 24)%nat eqn:Hlen; [|reflexivity].
  cbn [andb] in H.
  destruct (bytes_fromhex s) as [bs|] eqn:E; [|reflexivity].
  assert (Hs : is_Some (bytes_fromhex s)) by (rewrite E; eauto).
  apply (proj1 (bytes_fromhex_all_hex s) (string_length_eqb_even s Hlen)) in Hs.
  congruence.
Qed.

Lemma validate_object_id_malformed s :
  well_formed_id s = false ->
  validate_object_id s = Raise (HTTPException 400 "Invalid user ID format").
Proof.
  intros H. unfold validate_object_id.
  rewrite ObjectId_of_str_malformed by exact H. reflexivity.
Qed.

Lemma validate_object_id_well_formed s :
  well_formed_id s = true -> exists oid, validate_object_id s = Ok oid.
Proof.
  intros H. destruct (ObjectId_of_str_well_formed s H) as [oid E].
  exists oid. unfold validate_object_id. rewrite E. reflexivity.
Qed.

Lemma handle_errors_world {A} prefix (m : M A) w :
  (handle_errors prefix m w).2 = (m w).2.
Proof.
  unfold handle_errors. destruct (m w) as [[a|[code detail|cls msg]] w'];
    reflexivity.
Qed.

Lemma handle_errors_HTTPException {A} prefix (m : M A) w code detail w' :
  m w = (Raise (HTTPException code detail), w') ->
  handle_errors prefix m w = (Raise (HTTPException code detail), w').
Proof. unfold handle_errors. intros ->. reflexivity. Qed.

Section HandlerFacts.

Variable clock : nat -> datetime.
Variable find : query -> result (list task).
Variable datetime_sub_days : datetime -> Z -> result datetime.

(** The analyzer sends nothing to the store, whatever it returns. *)
Lemma productivity_analyzer_fetches user_id days ws we tasks w :
  fetches (productivity_analyzer clock user_id days ws we tasks w).2
  = fetches w.
Proof.
  unfold productivity_analyzer, bind, lift, ret.
  destruct (per_day (len tasks) days); [|reflexivity].
  destruct (per_day _ days); [|reflexivity].
  destruct (overdue_sum_run clock tasks 0 w) as (n & k & -> & _).
  destruct (percentage _ _); reflexivity.
Qed.

(** C8. A malformed identifier makes both handlers raise the 400 error
    with the world untouched: no query was sent (and the clock was not
    read).  A well-formed identifier passes validation; the statistics
    handler then sends exactly its query, and the productivity handler
    sends exactly its query once the start of the window is computed. *)
Theorem identifier_validation_spec
    (user_id : string) (days : option Z) (w : world) :
  (well_formed_id user_id = false ->
     get_user_statistics find user_id w
       = (Raise (HTTPException 400 "Invalid user ID format"), w)
     /\ get_productivity_analysis clock find datetime_sub_days user_id days w
       = (Raise (HTTPException 400 "Invalid user ID format"), w))
  /\ (well_formed_id user_id = true ->
      exists oid,
        validate_object_id user_id = Ok oid
        /\ fetches (get_user_statistics find user_id w).2
           = fetches w ++ [FindByUser oid]
        /\ (forall window_start,
              datetime_sub_days (clock (clock_reads w)) (default 30 days)
                = Ok window_start ->
              fetches (get_productivity_analysis clock find datetime_sub_days
                         user_id days w).2
              = fetches w ++ [FindByUserCreatedBetween oid window_start
                                (clock (clock_reads w))])).
Proof.
  split.
  - intros Hbad. pose proof (validate_object_id_malformed _ Hbad) as Hv.
    split; apply handle_errors_HTTPException; unfold bind, lift;
      rewrite Hv; reflexivity.
  - intros Hgood.
    destruct (validate_object_id_well_formed _ Hgood) as [oid Hv].
    exists oid. split; [exact Hv|]. split.
    + unfold get_user_statistics. rewrite handle_errors_world.
      unfold bind, lift, db_tasks_find. rewrite Hv. cbn [fetches clock_reads].
      destruct (find (FindByUser oid)) as [tasks|e]; reflexivity.
    + intros window_start Hstart.
      unfold get_productivity_analysis. rewrite handle_errors_world.
      unfold bind at 1, lift at 1. rewrite Hv.
      unfold bind at 1, datetime_now.
      unfold bind at 1, lift at 1. rewrite Hstart.
      unfold bind at 1, db_tasks_find. cbn [fetches clock_reads].
      destruct (find _) as [tasks|e]; [|reflexivity].
      rewrite productivity_analyzer_fetches. reflexivity.
Qed.

End HandlerFacts.

(** ** From the handlers to the reducers *)

Section HandlerRuns.

Variable clock : nat -> datetime.
Variable find : query -> result (list task).
Variable datetime_sub_days : datetime -> Z -> result datetime.

(** With a well-formed identifier and an answering store, the statistics
    handler returns what the aggregator makes of the fetched list. *)
Lemma get_user_statistics_run user_id oid tasks w :
  validate_object_id user_id = Ok oid ->
  find (FindByUser oid) = Ok tasks ->
  exists r,
    statistics_aggregator user_id tasks = Ok r
    /\ get_user_statistics find user_id w
       = (Ok r, {| clock_reads := clock_reads w;
                   fetches := fetches w ++ [FindByUser oid] |}).
Proof.
  intros Hv Hfind.
  destruct (statistics_aggregator_Ok user_id tasks) as (r & Hr & _).
  exists r. split; [exact Hr|].
  unfold get_user_statistics, handle_errors, bind, lift, db_tasks_find.
  rewrite Hv, Hfind, Hr. reflexivity.
Qed.

(** Likewise the productivity handler runs the analyzer on the fetched
    list, with the window that ends at the first clock reading. *)
Lemma get_productivity_analysis_run user_id days oid window_start tasks w :
  validate_object_id user_id = Ok oid ->
  datetime_sub_days (clock (clock_reads w)) (default 30 days) = Ok window_start ->
  find (FindByUserCreatedBetween oid window_start (clock (clock_reads w)))
    = Ok tasks ->
  len tasks <= PY_SSIZE_T_MAX ->
  get_productivity_analysis clock find datetime_sub_days user_id days w
  = productivity_analyzer clock user_id (default 30 days) window_start
      (clock (clock_reads w)) tasks
      {| clock_reads := S (clock_reads w);
         fetches := fetches w
                    ++ [FindByUserCreatedBetween oid window_start
                          (clock (clock_reads w))] |}.
Proof.
  intros Hv Hstart Hfind Hlen.
  unfold get_productivity_analysis, handle_errors.
  unfold bind at 1, lift at 1. rewrite Hv.
  unfold bind at 1, datetime_now.
  unfold bind at 1, lift at 1. rewrite Hstart.
  unfold bind at 1, db_tasks_find. cbn [fetches clock_reads]. rewrite Hfind.
  match goal with
  | |- context [productivity_analyzer ?c ?u ?d ?s ?e ?t ?w1] =>
      destruct (productivity_analyzer_run c u d s e t w1 Hlen)
        as (n & w' & _ & _ & ->)
  end.
  reflexivity.
Qed.

End HandlerRuns.

(** * The scenarios of the spec, run on the model *)

(** Ten tasks, four of them completed: the rate is [40.0]. *)
Example scenario_statistics :
  exists r, statistics_aggregator sample_id scenario_tasks = Ok r
    /\ completion_rate r = PyFloat (S754_finite false 5629499534213120 (-47))
    /\ status_distribution r !! "Todo" = Some 3
    /\ status_distribution r !! "In Progress" = Some 3
    /\ status_distribution r !! "Completed" = Some 4
    /\ priority_distribution r !! "Low" = Some 5
    /\ priority_distribution r !! "Medium" = Some 3
    /\ priority_distribution r !! "High" = Some 2.
Proof. eexists. split; [vm_compute; reflexivity|]. repeat split. Qed.

(** [40.0] is [5629499534213120 * 2^-47]. *)
Example forty_exact : 5629499534213120 = 40 * 2 ^ 47.
Proof. reflexivity. Qed.

(** A malformed identifier on either endpoint: 400, nothing fetched. *)
Example scenario_malformed_id :
  get_user_statistics sample_find "not-an-id" sample_world
    = (Raise (HTTPException 400 "Invalid user ID format"), sample_world)
  /\ get_productivity_analysis sample_clock sample_find sample_sub_days
       "not-an-id" (Some 7) sample_world
    = (Raise (HTTPException 400 "Invalid user ID format"), sample_world).
Proof. split; reflexivity. Qed.

(** A week of the sample store: two completions on the same day make one
    entry with count 2. *)
Example scenario_productivity :
  (get_productivity_analysis sample_clock sample_find sample_sub_days
     sample_id (Some 7) sample_world).1
  = Ok {| pa_success := true;
          pa_user_id := sample_id;
          period_days := 7;
          start_date := "2024-03-08T12:00:00";
          end_date := "2024-03-15T12:00:00";
          total_tasks_created := 7;
          total_tasks_completed := 4;
          overdue_tasks := 2;
          avg_tasks_per_day := PyFloat (S754_finite false 4503599627370496 (-52));
          avg_completions_per_day :=
            PyFloat (S754_finite false 5134103575202365 (-53));
          daily_completion_trend :=
            [ {| date := "2024-03-08"; count := 1 |};
              {| date := "2024-03-10"; count := 2 |} ];
          productivity_score :=
            PyFloat (S754_finite false 8041740084623442 (-47)) |}.
Proof. vm_compute. reflexivity. Qed.

(** A tie: 23 completed tasks out of 160 are 14.375 percent; the binary64
    product lies just below the tie and the rate is the float 14.37. *)
Example rounded_percentage_23_160 :
  rounded_percentage 23 160 = int_quotient 1437 100.
Proof. vm_compute. reflexivity. Qed.

(** * The theorems at the sample data *)

Lemma sample_tasks_fit : len sample_tasks <= PY_SSIZE_T_MAX.
Proof. compute. discriminate. Defined.

Lemma sample_tasks_wf : Forall task_wf sample_tasks.
Proof. repeat constructor; compute; discriminate. Defined.

Lemma statistics_counts_invariant_witness :
  Forall (fun t => recognized_priority t = true) sample_prioritized
  /\ exists r, statistics_aggregator sample_id sample_prioritized = Ok r
       /\ completed_tasks r + pending_tasks r + in_progress_tasks r
          <= total_tasks r
       /\ exists low medium high,
            priority_distribution r = dict3 "Low" low "Medium" medium "High" high
            /\ low + medium + high = total_tasks r.
Proof.
  assert (H : Forall (fun t => recognized_priority t = true) sample_prioritized)
    by (repeat constructor).
  split; [exact H|].
  destruct (statistics_counts_invariant sample_id sample_prioritized)
    as (r & Hr & Hle & Hprio).
  exists r. split; [exact Hr|]. split; [exact Hle|]. exact (Hprio H).
Defined.

Lemma unrecognized_values_not_counted_witness :
  let t := {| status := PyNone; priority := PyStr "Urgent";
              createdAt := None; dueDate := None |} in
  recognized_status t = false /\ recognized_priority t = false
  /\ exists r r',
       statistics_aggregator sample_id (sample_prioritized ++ t :: scenario_tasks)
         = Ok r
       /\ statistics_aggregator sample_id (sample_prioritized ++ scenario_tasks)
         = Ok r'
       /\ total_tasks r = total_tasks r' + 1
       /\ completed_tasks r = completed_tasks r'
       /\ pending_tasks r = pending_tasks r'
       /\ in_progress_tasks r = in_progress_tasks r'
       /\ status_distribution r = status_distribution r'
       /\ priority_distribution r = priority_distribution r'.
Proof.
  intros t. split; [reflexivity|]. split; [reflexivity|].
  destruct (unrecognized_values_not_counted sample_id sample_prioritized
              scenario_tasks t) as (r & r' & Hr & Hr' & Htot & Hs & Hp).
  destruct (Hs eq_refl) as (H1 & H2 & H3 & H4).
  exists r, r'. repeat split; auto.
Defined.

Lemma daily_completion_trend_witness :
  len sample_tasks <= PY_SSIZE_T_MAX
  /\ Forall task_wf sample_tasks
  /\ exists r w',
       productivity_analyzer sample_clock sample_id 7 (sample_day 2024 3 8)
         sample_now sample_tasks sample_world = (Ok r, w')
       /\ StronglySorted date_lt (daily_completion_trend r)
       /\ (forall e, e ∈ daily_completion_trend r <->
             1 <= count e
             /\ count e = count_if (completed_on (date e)) sample_tasks)
       /\ Forall (fun e => exists d,
                    datetime_wf d /\ date e = strftime_Ymd d
                    /\ count e = count_if (completed_on_day (calendar_day d))
                                          sample_tasks)
                 (daily_completion_trend r).
Proof.
  split; [exact sample_tasks_fit|]. split; [exact sample_tasks_wf|].
  destruct (daily_completion_trend_spec sample_clock sample_id 7
              (sample_day 2024 3 8) sample_now sample_tasks sample_world
              sample_tasks_fit) as (r & w' & Hrun & Hsorted & Hin & Hday).
  exists r, w'. split; [exact Hrun|]. split; [exact Hsorted|].
  split; [exact Hin|]. exact (Hday sample_tasks_wf).
Defined.

Lemma productivity_score_witness :
  len sample_tasks <= PY_SSIZE_T_MAX
  /\ exists r w',
       productivity_analyzer sample_clock sample_id 7 (sample_day 2024 3 8)
         sample_now sample_tasks sample_world = (Ok r, w')
       /\ total_tasks_created r = len sample_tasks
       /\ total_tasks_completed r = count_if (is_status "Completed") sample_tasks
       /\ productivity_score r =
            if 0 <? total_tasks_created r
            then PyFloat (rounded_percentage (total_tasks_completed r)
                                             (total_tasks_created r))
            else PyInt 0.
Proof.
  split; [exact sample_tasks_fit|].
  exact (productivity_score_spec sample_clock sample_id 7 (sample_day 2024 3 8)
           sample_now sample_tasks sample_world sample_tasks_fit).
Defined.

Lemma overdue_tasks_witness :
  len sample_tasks <= PY_SSIZE_T_MAX
  /\ (forall k, (clock_reads sample_world <= k)%nat -> sample_clock k = sample_now)
  /\ exists r w',
       productivity_analyzer sample_clock sample_id 7 (sample_day 2024 3 8)
         sample_now sample_tasks sample_world = (Ok r, w')
       /\ overdue_tasks r = count_if (is_overdue sample_now) sample_tasks.
Proof.
  split; [exact sample_tasks_fit|]. split; [reflexivity|].
  exact (overdue_tasks_spec sample_clock sample_id 7 (sample_day 2024 3 8)
           sample_now sample_tasks sample_world sample_now sample_tasks_fit
           (fun k _ => eq_refl)).
Defined.

Lemma per_day_averages_witness :
  len sample_tasks <= PY_SSIZE_T_MAX
  /\ (exists r w',
        productivity_analyzer sample_clock sample_id 7 (sample_day 2024 3 8)
          sample_now sample_tasks sample_world = (Ok r, w')
        /\ total_tasks_created r = len sample_tasks
        /\ total_tasks_completed r = count_if (is_status "Completed") sample_tasks
        /\ avg_tasks_per_day r
           = PyFloat (rounded_ratio (total_tasks_created r) 7)
        /\ avg_completions_per_day r
           = PyFloat (rounded_ratio (total_tasks_completed r) 7))
  /\ (exists r w',
        productivity_analyzer sample_clock sample_id 0 sample_now sample_now
          sample_tasks sample_world = (Ok r, w')
        /\ total_tasks_created r = len sample_tasks
        /\ total_tasks_completed r = count_if (is_status "Completed") sample_tasks
        /\ avg_tasks_per_day r = PyInt 0
        /\ avg_completions_per_day r = PyInt 0).
Proof.
  split; [exact sample_tasks_fit|]. split.
  - exact (proj2 (per_day_averages_spec sample_clock sample_id 7
                    (sample_day 2024 3 8) sample_now sample_tasks sample_world)
                 sample_tasks_fit).
  - exact (proj2 (per_day_averages_spec sample_clock sample_id 0 sample_now
                    sample_now sample_tasks sample_world)
                 sample_tasks_fit).
Defined.

Lemma trend_sum_witness :
  len sample_tasks <= PY_SSIZE_T_MAX
  /\ exists r w',
       productivity_analyzer sample_clock sample_id 7 (sample_day 2024 3 8)
         sample_now sample_tasks sample_world = (Ok r, w')
       /\ total_tasks_completed r = count_if (is_status "Completed") sample_tasks
       /\ sum_counts (daily_completion_trend r)
          = count_if (fun t => is_status "Completed" t && has_createdAt t)
                     sample_tasks
       /\ sum_counts (daily_completion_trend r) <= total_tasks_completed r
       /\ (sum_counts (daily_completion_trend r) = total_tasks_completed r
           <-> Forall (fun t => is_status "Completed" t = true
                                -> has_createdAt t = true) sample_tasks).
Proof.
  split; [exact sample_tasks_fit|].
  exact (trend_sum_spec sample_clock sample_id 7 (sample_day 2024 3 8)
           sample_now sample_tasks sample_world sample_tasks_fit).
Defined.

Lemma identifier_validation_witness :
  well_formed_id "not-an-id" = false
  /\ well_formed_id sample_id = true
  /\ (get_user_statistics sample_find "not-an-id" sample_world
        = (Raise (HTTPException 400 "Invalid user ID format"), sample_world)
      /\ get_productivity_analysis sample_clock sample_find sample_sub_days
           "not-an-id" (Some 7) sample_world
        = (Raise (HTTPException 400 "Invalid user ID format"), sample_world))
  /\ exists oid,
       validate_object_id sample_id = Ok oid
       /\ fetches (get_user_statistics sample_find sample_id sample_world).2
          = fetches sample_world ++ [FindByUser oid]
       /\ fetches (get_productivity_analysis sample_clock sample_find
                     sample_sub_days sample_id (Some 7) sample_world).2
          = fetches sample_world
            ++ [FindByUserCreatedBetween oid
                  (mk_datetime 2024 3 8 12 0 0 0) sample_now].
Proof.
  split; [reflexivity|]. split; [reflexivity|]. split.
  - exact (proj1 (identifier_validation_spec sample_clock sample_find
                    sample_sub_days "not-an-id" (Some 7) sample_world) eq_refl).
  - destruct (proj2 (identifier_validation_spec sample_clock sample_find
                       sample_sub_days sample_id (Some 7) sample_world) eq_refl)
      as (oid & Hv & Hstats & Hprod).
    exists oid. split; [exact Hv|]. split; [exact Hstats|].
    exact (Hprod _ eq_refl).
Defined.

(** * Further properties of the code *)

(** ** More on the binary64 operations *)

Lemma div_eucl_div_mod a b : Z.div_eucl a b = (a / b, a mod b).
Proof. unfold Z.div, Z.modulo. destruct (Z.div_eucl a b); reflexivity. Qed.

Lemma new_location_0 nb : new_location nb 0 = loc_Exact.
Proof. unfold new_location. destruct (Z.even nb); reflexivity. Qed.

(** A positive int divided by itself is exactly [1.0]. *)
Lemma int_quotient_self t : 0 < t -> int_quotient t t = float_one.
Proof.
  destruct t as [|p|p]; try lia. intros _.
  unfold int_quotient. cbn [Z2SF SFdiv]. unfold SFdiv_core_binary.
  replace (Zdigits2 (Z.pos p) + 0 - (Zdigits2 (Z.pos p) + 0)) with 0 by lia.
  change (Z.min (fexp prec emax 0) (0 - 0)) with (-53).
  change (0 - 0 - -53) with 53.
  cbv beta iota zeta.
  rewrite div_eucl_div_mod, Z.shiftl_mul_pow2 by lia.
  rewrite (Z.mul_comm (Z.pos p)), Z.div_mul, Z.mod_mul by lia.
  rewrite new_location_0. reflexivity.
Qed.

(** The sign and the magnitude of a rounded non-negative value. *)
Lemma binary_round_aux_bound s m e l :
  0 <= m -> e <= emax - prec ->
  (m = 0 \/ Zdigits2 m + e <= 1023) ->
  match binary_round_aux prec emax s m e l with
  | S754_zero s' => s' = s
  | S754_finite s' m' e' =>
      s' = s
      /\ Zdigits2 (Z.pos m') + e' <= Z.max (Zdigits2 m + e) (emin prec emax) + 1
  | _ => False
  end.
Proof.
  intros Hm He Hd. unfold binary_round_aux.
  pose proof (shr_fexp_spec m e l Hm) as H1.
  destruct (shr_fexp prec emax m e l) as [r1 e1].
  destruct H1 as (H1a & H1b & H1c).
  pose proof (round_nearest_even_bounds (shr_m r1) (loc_of_shr_record r1) H1a) as Hr.
  set (m2 := round_nearest_even (shr_m r1) (loc_of_shr_record r1)) in *.
  assert (Hm2 : 0 <= m2) by lia.
  pose proof (shr_fexp_spec m2 e1 loc_Exact Hm2) as H2.
  destruct (shr_fexp prec emax m2 e1 loc_Exact) as [r2 e2].
  destruct H2 as (H2a & H2b & H2c).
  assert (Hd0 : m = 0 -> Zdigits2 m = 0) by (intros ->; reflexivity).
  pose proof (Zdigits2_nonneg m) as Hdm.
  assert (He1 : e1 <= emax - prec).
  { unfold fexp, emin, emax, prec in *. lia. }
  assert (Hm2d : Zdigits2 m2 + e1
                 <= Z.max (Zdigits2 m + e) (emin prec emax) + 1).
  { assert (Zdigits2 m2 <= Zdigits2 (shr_m r1) + 1).
    { etransitivity; [apply (Zdigits2_mono m2 (shr_m r1 + 1)); lia|].
      apply Zdigits2_succ; lia. }
    destruct H1b as [H1b|H1b].
    - rewrite H1b in *. simpl in *. unfold fexp, emin, emax, prec in *. lia.
    - unfold fexp, emin, emax, prec in *. lia. }
  assert (Hm2d' : Zdigits2 m2 + e1 <= 1024).
  { unfold emin, emax, prec in *. lia. }
  assert (He2 : e2 <= emax - prec).
  { unfold fexp, emin, emax, prec in *. lia. }
  apply Z.leb_le in He2.
  destruct (shr_m r2) as [|p|p] eqn:Er2; [reflexivity| |lia].
  rewrite He2. split; [reflexivity|].
  destruct H2b as [H2b|H2b]; [discriminate|]. lia.
Qed.

(** The quotient of a non-negative int by a positive one is a zero or a
    positive finite number, of magnitude below [2^(log2 a - log2 b + 2)]. *)
Lemma int_quotient_bound a b :
  0 <= a -> 0 < b -> Z.log2 a <= Z.log2 b + 1021 ->
  match int_quotient a b with
  | S754_zero false => True
  | S754_finite false m e =>
      Zdigits2 (Z.pos m) + e <= Z.max (Z.log2 a - Z.log2 b + 1) 0 + 1
  | _ => False
  end.
Proof.
  intros Ha Hb Hlog. unfold int_quotient.
  destruct a as [|pa|pa]; [|clear Ha|lia].
  { destruct b; try lia; exact I. }
  destruct b as [|pb|pb]; try lia. clear Hb.
  cbn [Z2SF SFdiv]. unfold SFdiv_core_binary.
  set (e' := Z.min _ _).
  set (m' := match 0 - 0 - e' with Z0 => Z.pos pa | Zpos _ => _ | Zneg _ => 0 end).
  assert (He' : e' <= 0) by (subst e'; lia).
  assert (Hm' : m' = Z.pos pa * 2 ^ (- e')).
  { subst m'. replace (0 - 0 - e') with (- e') by lia.
    destruct (- e') as [|n|n] eqn:En; [lia| |lia].
    rewrite Z.shiftl_mul_pow2 by lia. reflexivity. }
  clearbody m' e'.
  pose proof (Z_div_mod m' (Z.pos pb) eq_refl) as Hdiv.
  destruct (Z.div_eucl m' (Z.pos pb)) as [q r]. destruct Hdiv as [Hq Hr].
  assert (Hpow : 0 < 2 ^ (- e')) by (apply Z.pow_pos_nonneg; lia).
  assert (Hq0 : 0 <= q) by nia.
  assert (Hqd : q = 0 \/ Zdigits2 q + e'
                         <= Z.log2 (Z.pos pa) - Z.log2 (Z.pos pb) + 1).
  { destruct (Z.eq_dec q 0) as [->|Hqne]; [now left|right].
    rewrite Zdigits2_log2 by lia.
    assert (Hle : q * Z.pos pb <= m') by lia.
    pose proof (Z.log2_le_mono _ _ Hle) as H1.
    pose proof (Z.log2_mul_below q (Z.pos pb) ltac:(lia) ltac:(lia)) as H2.
    rewrite Hm' in H1.
    rewrite <- Z.shiftl_mul_pow2 in H1 by lia.
    rewrite Z.log2_shiftl in H1 by lia.
    lia. }
  pose proof (binary_round_aux_bound (xorb false false) q e'
                (new_location (Z.pos pb) r) Hq0
                ltac:(unfold emax, prec; lia)
                ltac:(destruct Hqd; [now left|right; lia])) as Hb.
  destruct (binary_round_aux prec emax (xorb false false) q e' _)
    as [s|s| |s m e]; try contradiction.
  - cbn in Hb. subst s. exact I.
  - destruct Hb as [-> Hb]. cbn [xorb].
    destruct Hqd as [->|Hqd]; unfold emin, emax, prec in *; cbn [Zdigits2] in *; lia.
Qed.

Lemma below_pow2_nonneg_finite x D : below_pow2 x D -> nonneg_finite x = true.
Proof. destruct x as [[]|[]| |[] m e]; simpl; intros H; try contradiction; auto. Qed.

Lemma int_quotient_below a b :
  0 <= a -> 0 < b -> Z.log2 a <= Z.log2 b + 1021 ->
  below_pow2 (int_quotient a b) (Z.max (Z.log2 a - Z.log2 b + 1) 0 + 1).
Proof.
  intros Ha Hb Hlog. pose proof (int_quotient_bound a b Ha Hb Hlog) as H.
  unfold below_pow2. destruct (int_quotient a b) as [[]|[]| |[] m e]; auto.
Qed.

(** Multiplying by [100.0] adds at most eight binary digits. *)
Lemma float_mul_f100_below x D :
  below_pow2 x D -> D <= 1000 ->
  below_pow2 (float_mul x f100) (Z.max (D + 7) (emin prec emax) + 1).
Proof.
  intros Hx HD. destruct x as [[]|[]| |[] m e]; unfold below_pow2 in Hx; try contradiction.
  { exact I. }
  unfold float_mul, f100. cbn [SFmul xorb].
  set (M := 7036874417766400%positive).
  assert (Hdig : Zdigits2 (Z.pos (m * M)) <= Zdigits2 (Z.pos m) + 53).
  { rewrite !Zdigits2_log2 by lia. rewrite Pos2Z.inj_mul.
    pose proof (Z.log2_mul_above (Z.pos m) (Z.pos M) ltac:(lia) ltac:(lia)) as H.
    change (Z.log2 (Z.pos M)) with 52 in H. lia. }
  pose proof (Zdigits2_nonneg (Z.pos m)) as Hm0.
  assert (Hm1 : 1 <= Zdigits2 (Z.pos m)).
  { rewrite Zdigits2_log2 by lia. pose proof (Z.log2_nonneg (Z.pos m)). lia. }
  pose proof (binary_round_aux_bound false (Z.pos (m * M)) (e + -46) loc_Exact
                ltac:(lia) ltac:(unfold emax, prec; lia) ltac:(right; lia)) as Hb.
  unfold below_pow2.
  destruct (binary_round_aux prec emax false (Z.pos (m * M)) (e + -46) loc_Exact)
    as [s|s| |s m' e']; try contradiction.
  - subst s. exact I.
  - destruct Hb as [-> Hb]. unfold emin, emax, prec in *. lia.
Qed.

Lemma round_half_even_scaled_bounds n e :
  0 <= n ->
  0 <= round_half_even_scaled n e
  /\ (0 <= e -> round_half_even_scaled n e = n * 2 ^ e)
  /\ (e < 0 -> round_half_even_scaled n e <= n / 2 ^ (- e) + 1).
Proof.
  intros Hn. unfold round_half_even_scaled.
  destruct (Z.leb_spec 0 e) as [He|He].
  - split; [|split; [reflexivity|lia]].
    apply Z.mul_nonneg_nonneg; [lia|]. apply Z.pow_nonneg. lia.
  - assert (Hd : 0 < 2 ^ (- e)) by (apply Z.pow_pos_nonneg; lia).
    assert (Hq : 0 <= n / 2 ^ (- e)) by (apply Z.div_pos; lia).
    split; [|split; [lia|intros _]];
      destruct (2 * (n mod 2 ^ (- e)) ?= 2 ^ (- e));
      try destruct (Z.even (n / 2 ^ (- e))); lia.
Qed.

(** Rounding a bounded non-negative float to two decimals gives a zero or
    a positive finite number. *)
Lemma py_round_2_nonneg_finite x D :
  below_pow2 x D -> D <= 1000 -> nonneg_finite (py_round x 2) = true.
Proof.
  intros Hx HD. destruct x as [[]|[]| |[] m e]; unfold below_pow2 in Hx; try contradiction.
  { reflexivity. }
  unfold py_round.
  change (NDIGITS_MAX <? 2)%nat with false. cbv beta iota zeta.
  change (10 ^ Z.of_nat 2) with 100.
  destruct (round_half_even_scaled_bounds (Z.pos m * 100) e ltac:(lia))
    as (Hk0 & Hpos & Hneg).
  destruct (round_half_even_scaled (Z.pos m * 100) e) as [|k|k] eqn:Ek;
    [reflexivity| |lia].
  apply (below_pow2_nonneg_finite _ (Z.max (Z.log2 (Z.pos k) - Z.log2 100 + 1) 0 + 1)).
  apply (int_quotient_below (Z.pos k) 100); [lia|lia|].
  change (Z.log2 100) with 6.
  assert (Hm : Z.log2 (Z.pos m * 100) <= Z.log2 (Z.pos m) + 7).
  { pose proof (Z.log2_mul_above (Z.pos m) 100 ltac:(lia) ltac:(lia)) as H.
    change (Z.log2 100) with 6 in H. lia. }
  rewrite Zdigits2_log2 in Hx by lia.
  destruct (Z.leb_spec 0 e) as [He|He].
  - rewrite (Hpos He). rewrite <- Z.shiftl_mul_pow2 by lia.
    rewrite Z.log2_shiftl by lia. lia.
  - specialize (Hneg He).
    assert (Hd : 0 < 2 ^ (- e)) by (apply Z.pow_pos_nonneg; lia).
    set (q := Z.pos m * 100 / 2 ^ (- e)) in *.
    assert (Hq0 : 0 <= q) by (apply Z.div_pos; lia).
    destruct (Z.eq_dec q 0) as [Hq|Hq].
    + assert (Z.pos k <= 1) by lia.
      pose proof (Z.log2_le_mono _ _ H). change (Z.log2 1) with 0 in *. lia.
    + pose proof (Z.log2_le_mono _ _ Hneg) as H1.
      pose proof (Z.log2_succ_le q) as H2.
      replace (q + 1) with (Z.succ q) in H1 by lia.
      assert (Hle : q * 2 ^ (- e) <= Z.pos m * 100).
      { subst q. rewrite Z.mul_comm. apply Z.mul_div_le. lia. }
      pose proof (Z.log2_le_mono _ _ Hle) as H3.
      rewrite <- Z.shiftl_mul_pow2 in H3 by lia.
      rewrite Z.log2_shiftl in H3 by lia.
      lia.
Qed.

(** [round(c / t * 100, 2)] is a zero or a positive finite number whenever
    [0 <= c <= t] and [0 < t]. *)
Lemma rounded_percentage_nonneg_finite c t :
  0 <= c <= t -> 0 < t -> nonneg_finite (rounded_percentage c t) = true.
Proof.
  intros Hc Ht. unfold rounded_percentage.
  pose proof (Z.log2_le_mono c t ltac:(lia)) as Hlog.
  pose proof (int_quotient_below c t ltac:(lia) Ht ltac:(lia)) as Hq.
  pose proof (float_mul_f100_below _ _ Hq ltac:(lia)) as Hp.
  apply (py_round_2_nonneg_finite _ _ Hp).
  unfold emin, emax, prec. lia.
Qed.

(** [round(n / days, 2)] likewise, for a count within [sys.maxsize]. *)
Lemma rounded_ratio_nonneg_finite n days :
  0 <= n <= PY_SSIZE_T_MAX -> 0 < days ->
  nonneg_finite (rounded_ratio n days) = true.
Proof.
  intros Hn Hd. unfold rounded_ratio.
  assert (Z.log2 n <= 62).
  { pose proof (Z.log2_le_mono n PY_SSIZE_T_MAX ltac:(lia)) as H.
    change (Z.log2 PY_SSIZE_T_MAX) with 62 in H. exact H. }
  pose proof (Z.log2_nonneg days).
  pose proof (int_quotient_below n days ltac:(lia) Hd ltac:(lia)) as Hq.
  apply (py_round_2_nonneg_finite _ _ Hq). lia.
Qed.

(** ** More on counting *)

Lemma count_if_perm {A} (p : A -> bool) l l' :
  l ≡ₚ l' -> count_if p l = count_if p l'.
Proof.
  induction 1 as [|x l l' _ IH|x y l|l l' l'' _ IH1 _ IH2].
  - reflexivity.
  - rewrite !count_if_cons, IH. reflexivity.
  - rewrite !count_if_cons. lia.
  - congruence.
Qed.

Lemma len_perm {A} (l l' : list A) : l ≡ₚ l' -> len l = len l'.
Proof. intros H. unfold len. by rewrite H. Qed.

Lemma count_if_all {A} (p : A -> bool) l :
  Forall (fun x => p x = true) l -> count_if p l = len l.
Proof.
  induction 1 as [|x l Hx _ IH]; [reflexivity|].
  rewrite count_if_cons, Hx, IH. unfold len. simpl length. lia.
Qed.

Lemma count_if_none {A} (p : A -> bool) l :
  Forall (fun x => p x = false) l -> count_if p l = 0.
Proof.
  induction 1 as [|x l Hx _ IH]; [reflexivity|].
  rewrite count_if_cons, Hx, IH. reflexivity.
Qed.

Lemma count_if_partition4 {A} (p1 p2 p3 p4 : A -> bool) l :
  (forall x, (if p1 x then 1 else 0) + (if p2 x then 1 else 0)
             + (if p3 x then 1 else 0) + (if p4 x then 1 else 0) = 1) ->
  count_if p1 l + count_if p2 l + count_if p3 l + count_if p4 l = len l.
Proof.
  intros H. induction l as [|x l IH]; [reflexivity|].
  rewrite !count_if_cons. specialize (H x).
  unfold len in *. simpl length. lia.
Qed.

Lemma status_buckets_partition (t : task) :
  (if is_status "Completed" t then 1 else 0)
  + (if is_status "Todo" t then 1 else 0)
  + (if is_status "In Progress" t then 1 else 0)
  + (if negb (recognized_status t) then 1 else 0) = 1.
Proof.
  unfold recognized_status, is_status, py_eq_str. destruct (status t); try reflexivity.
  repeat case_bool_decide; subst; simpl; try lia; discriminate.
Qed.

Lemma priority_buckets_partition (t : task) :
  (if is_priority "Low" t then 1 else 0)
  + (if is_priority "Medium" t then 1 else 0)
  + (if is_priority "High" t then 1 else 0)
  + (if negb (recognized_priority t) then 1 else 0) = 1.
Proof.
  unfold recognized_priority, is_priority, py_eq_str.
  destruct (priority t); try reflexivity.
  repeat case_bool_decide; subst; simpl; try lia; discriminate.
Qed.

(** ** More on the Statistics Aggregator *)

(** X1. Every record is accounted for exactly once on each axis: the total
    is the three status counts plus the number of records whose status is
    missing or unknown, and the three priority counts plus the number of
    records whose priority is missing or unknown; the status distribution
    repeats the three top-level status counts. *)
Theorem statistics_accounting (user_id : string) (tasks : list task) :
  exists r, statistics_aggregator user_id tasks = Ok r
    /\ total_tasks r
       = completed_tasks r + pending_tasks r + in_progress_tasks r
         + count_if (fun t => negb (recognized_status t)) tasks
    /\ status_distribution r
       = dict3 "Todo" (pending_tasks r) "In Progress" (in_progress_tasks r)
               "Completed" (completed_tasks r)
    /\ exists low medium high,
         priority_distribution r = dict3 "Low" low "Medium" medium "High" high
         /\ total_tasks r
            = low + medium + high
              + count_if (fun t => negb (recognized_priority t)) tasks.
Proof.
  destruct (statistics_aggregator_Ok user_id tasks)
    as (r & Hr & Htot & Hc & Hp & Hi & Hprio & Hstat).
  exists r. split; [exact Hr|]. split; [|split].
  - rewrite Htot, Hc, Hp, Hi. symmetry.
    apply count_if_partition4. apply status_buckets_partition.
  - rewrite Hstat, Hc, Hp, Hi. reflexivity.
  - do 3 eexists. split; [exact Hprio|].
    rewrite Htot. symmetry.
    apply count_if_partition4. apply priority_buckets_partition.
Qed.

(** X2. The statistics do not depend on the order in which the store
    returns the records. *)
Theorem statistics_order_independent
    (user_id : string) (tasks tasks' : list task) :
  tasks ≡ₚ tasks' ->
  statistics_aggregator user_id tasks = statistics_aggregator user_id tasks'.
Proof.
  intros Hperm. destruct tasks as [|t tasks].
  - apply Permutation_nil_l in Hperm. subst tasks'. reflexivity.
  - destruct tasks' as [|t' tasks'].
    { apply Permutation_nil_r in Hperm. discriminate. }
    cbn [statistics_aggregator]. rewrite !tally_statistics_Ok.
    rewrite (len_perm _ _ Hperm).
    rewrite !(count_if_perm _ _ _ Hperm). reflexivity.
Qed.

Lemma int_quotient_0 t : 0 < t -> int_quotient 0 t = S754_zero false.
Proof. destruct t; try lia. reflexivity. Qed.

Lemma rounded_percentage_all t : 0 < t -> rounded_percentage t t = f100.
Proof.
  intros Ht. unfold rounded_percentage. rewrite int_quotient_self by exact Ht.
  vm_compute. reflexivity.
Qed.

Lemma rounded_percentage_none t :
  0 < t -> rounded_percentage 0 t = S754_zero false.
Proof.
  intros Ht. unfold rounded_percentage. rewrite int_quotient_0 by exact Ht.
  reflexivity.
Qed.

(** X3. On a non-empty list the completion rate is exactly [100.0] when
    every record is completed and exactly [0.0] when none is. *)
Theorem completion_rate_extremes
    (user_id : string) (t : task) (tasks : list task) :
  exists r, statistics_aggregator user_id (t :: tasks) = Ok r
    /\ (Forall (fun t => is_status "Completed" t = true) (t :: tasks) ->
        completion_rate r = PyFloat f100)
    /\ (Forall (fun t => is_status "Completed" t = false) (t :: tasks) ->
        completion_rate r = PyFloat (S754_zero false)).
Proof.
  cbn [statistics_aggregator]. rewrite tally_statistics_Ok.
  eexists. split; [reflexivity|]. cbn [completion_rate].
  rewrite len_cons_pos.
  assert (Hpos : 0 < len (t :: tasks)) by (unfold len; simpl length; lia).
  split; intros Hall.
  - rewrite (count_if_all _ _ Hall), rounded_percentage_all by exact Hpos.
    reflexivity.
  - rewrite (count_if_none _ _ Hall), rounded_percentage_none by exact Hpos.
    reflexivity.
Qed.

(** X4. The completion rate is always a plain non-negative number: the
    int 0, a float zero or a positive finite float; never NaN, never an
    infinity, never negative. *)
Theorem completion_rate_nonneg_finite (user_id : string) (tasks : list task) :
  exists r, statistics_aggregator user_id tasks = Ok r
    /\ pynum_nonneg_finite (completion_rate r) = true.
Proof.
  destruct tasks as [|t tasks].
  - eexists. split; reflexivity.
  - cbn [statistics_aggregator]. rewrite tally_statistics_Ok.
    eexists. split; [reflexivity|]. cbn [completion_rate].
    rewrite len_cons_pos. cbn [pynum_nonneg_finite].
    apply rounded_percentage_nonneg_finite.
    + apply count_if_bounds.
    + unfold len. simpl length. lia.
Qed.

(** ** More on the Productivity Analyzer *)

Lemma count_if_length {A} (p : A -> bool) l :
  count_if p l = Z.of_nat (length (List.filter p l)).
Proof. reflexivity. Qed.

Section AnalyzerMore.

Variable clock : nat -> datetime.

(** The overdue scan reads the clock once for every candidate record,
    counts no more than the candidates and sends nothing to the store. *)
Lemma overdue_sum_reads tasks : forall acc w,
  exists n,
    overdue_sum clock tasks acc w
      = (Ok n, {| clock_reads :=
                    clock_reads w + length (List.filter due_candidate tasks);
                  fetches := fetches w |})
    /\ acc <= n <= acc + count_if due_candidate tasks.
Proof.
  induction tasks as [|t tasks IH]; intros acc w; cbn [overdue_sum].
  - exists acc. unfold ret. cbn [List.filter length]. rewrite Nat.add_0_r.
    rewrite count_if_nil. destruct w. split; [reflexivity|lia].
  - rewrite count_if_cons. cbn [List.filter].
    destruct (negb (is_status "Completed" t)) eqn:Hs.
    + destruct (dueDate t) as [due|] eqn:Hd.
      * assert (Hc : due_candidate t = true)
          by (unfold due_candidate; rewrite Hs, Hd; reflexivity).
        rewrite Hc. unfold bind, datetime_now.
        set (w1 := {| clock_reads := S (clock_reads w); fetches := fetches w |}).
        set (acc1 := if datetime_lt due (clock (clock_reads w))
                     then acc + 1 else acc).
        destruct (IH acc1 w1) as (n & Hrun & Hn).
        exists n. rewrite Hrun. subst w1. cbn [clock_reads fetches length].
        rewrite Nat.add_succ_r. split; [reflexivity|].
        subst acc1. destruct (datetime_lt _ _); lia.
      * assert (Hc : due_candidate t = false)
          by (unfold due_candidate; rewrite Hs, Hd; reflexivity).
        rewrite Hc. destruct (IH acc w) as (n & Hrun & Hn).
        exists n. split; [exact Hrun|lia].
    + assert (Hc : due_candidate t = false)
        by (unfold due_candidate; rewrite Hs; reflexivity).
      rewrite Hc. destruct (IH acc w) as (n & Hrun & Hn).
      exists n. split; [exact Hrun|lia].
Qed.

Lemma due_candidate_open (t : task) :
  (if due_candidate t then 1 else 0)
  + (if is_status "Completed" t then 1 else 0) <= 1.
Proof.
  unfold due_candidate. destruct (is_status "Completed" t); simpl; [lia|].
  destruct (dueDate t); lia.
Qed.

Lemma count_if_disjoint2 {A} (p q : A -> bool) l :
  (forall x, (if p x then 1 else 0) + (if q x then 1 else 0) <= 1) ->
  count_if p l + count_if q l <= len l.
Proof.
  intros H. induction l as [|x l IH]; [unfold count_if, len; simpl; lia|].
  rewrite !count_if_cons. specialize (H x).
  unfold len in *. simpl length. lia.
Qed.

(** X5. Whatever the clock does, the overdue count is between 0 and the
    number of records that are not completed and have a due date, so
    overdue plus completed never exceeds created; the analyzer reads the
    clock once for each such record and sends nothing to the store. *)
Theorem overdue_within_open_tasks
    (user_id : string) (days : Z) (window_start window_end : datetime)
    (tasks : list task) (w : world) :
  len tasks <= PY_SSIZE_T_MAX ->
  exists r w',
    productivity_analyzer clock user_id days window_start window_end tasks w
      = (Ok r, w')
    /\ 0 <= overdue_tasks r <= count_if due_candidate tasks
    /\ overdue_tasks r + total_tasks_completed r <= total_tasks_created r
    /\ clock_reads w'
       = (clock_reads w + length (List.filter due_candidate tasks))%nat
    /\ fetches w' = fetches w.
Proof.
  intros Hlen.
  destruct (productivity_analyzer_run clock user_id days window_start
              window_end tasks w Hlen) as (n & w' & Hsum & _ & Hrun).
  destruct (overdue_sum_reads tasks 0 w) as (n' & Hreads & Hn).
  rewrite Hreads in Hsum. injection Hsum as <- <-.
  eexists _, _. split; [exact Hrun|].
  cbn [overdue_tasks total_tasks_completed total_tasks_created clock_reads fetches].
  pose proof (count_if_disjoint2 due_candidate (is_status "Completed") tasks
                due_candidate_open).
  repeat split; lia.
Qed.

(** X6. While the clock moves between [lo] and [hi] during the scan, the
    overdue count lies between the number of records overdue at [lo] and
    the number overdue at [hi]. *)
Theorem overdue_tasks_bracket
    (user_id : string) (days : Z) (window_start window_end : datetime)
    (tasks : list task) (w : world) (lo hi : datetime) :
  len tasks <= PY_SSIZE_T_MAX ->
  (forall k, (clock_reads w <= k)%nat ->
             datetime_le lo (clock k) /\ datetime_le (clock k) hi) ->
  exists r w',
    productivity_analyzer clock user_id days window_start window_end tasks w
      = (Ok r, w')
    /\ count_if (is_overdue lo) tasks <= overdue_tasks r
       <= count_if (is_overdue hi) tasks.
Proof.
  intros Hlen Hclock.
  destruct (productivity_analyzer_run clock user_id days window_start
              window_end tasks w Hlen) as (n & w' & Hsum & _ & Hrun).
  destruct (overdue_sum_between clock lo hi tasks 0 w Hclock)
    as (n' & k & Hbetween & Hn).
  rewrite Hbetween in Hsum. injection Hsum as <- _.
  eexists _, w'. split; [exact Hrun|]. cbn [overdue_tasks]. lia.
Qed.

(** X7. The three computed numbers of the productivity result (the two
    per-day averages and the score) are plain non-negative numbers: an
    int 0, a float zero or a positive finite float. *)
Theorem productivity_numbers_nonneg_finite
    (user_id : string) (days : Z) (window_start window_end : datetime)
    (tasks : list task) (w : world) :
  len tasks <= PY_SSIZE_T_MAX ->
  exists r w',
    productivity_analyzer clock user_id days window_start window_end tasks w
      = (Ok r, w')
    /\ pynum_nonneg_finite (avg_tasks_per_day r) = true
    /\ pynum_nonneg_finite (avg_completions_per_day r) = true
    /\ pynum_nonneg_finite (productivity_score r) = true.
Proof.
  intros Hlen.
  destruct (productivity_analyzer_run clock user_id days window_start
              window_end tasks w Hlen) as (n & w' & _ & _ & Hrun).
  eexists _, w'. split; [exact Hrun|].
  cbn [avg_tasks_per_day avg_completions_per_day productivity_score].
  pose proof (count_if_bounds (is_status "Completed") tasks) as Hc.
  assert (0 <= len tasks) by (unfold len; lia).
  repeat split.
  - destruct (Z.ltb_spec 0 days); [|reflexivity].
    apply rounded_ratio_nonneg_finite; lia.
  - destruct (Z.ltb_spec 0 days); [|reflexivity].
    apply rounded_ratio_nonneg_finite; lia.
  - destruct (Z.ltb_spec 0 (len tasks)); [|reflexivity].
    apply rounded_percentage_nonneg_finite; lia.
Qed.

(** X8. On the empty list the analyzer returns at once, without reading
    the clock: every count is 0, the trend is empty, the score is the int
    0, and the averages are the float [0.0] when [days > 0] and the int 0
    otherwise. *)
Theorem productivity_analyzer_empty
    (user_id : string) (days : Z) (window_start window_end : datetime)
    (w : world) :
  productivity_analyzer clock user_id days window_start window_end [] w
  = (Ok {| pa_success := true;
           pa_user_id := user_id;
           period_days := days;
           start_date := isoformat window_start;
           end_date := isoformat window_end;
           total_tasks_created := 0;
           total_tasks_completed := 0;
           overdue_tasks := 0;
           avg_tasks_per_day :=
             if 0 <? days then PyFloat (S754_zero false) else PyInt 0;
           avg_completions_per_day :=
             if 0 <? days then PyFloat (S754_zero false) else PyInt 0;
           daily_completion_trend := [];
           productivity_score := PyInt 0 |}, w).
Proof.
  unfold productivity_analyzer, bind, lift, ret. cbn [List.filter].
  change (len (@nil task)) with 0.
  unfold per_day. destruct (Z.ltb_spec 0 days) as [Hd|Hd].
  - pose proof (Z.log2_nonneg days) as Hlog.
    rewrite int_truediv_Ok by (change (Z.log2 0) with 0; lia).
    cbn [result_bind].
    rewrite int_quotient_0 by exact Hd. reflexivity.
  - reflexivity.
Qed.

End AnalyzerMore.

(** ** Date strings in chronological order *)












(** ** More on the trend *)



Lemma len_le_sum_counts (trend : list trend_entry) :
  Forall (fun e => 1 <= count e) trend -> len trend <= sum_counts trend.
Proof.
  induction 1 as [|e l He _ IH]; [reflexivity|].
  unfold len in *. cbn [sum_counts fold_right length] in *.
  fold (sum_counts l). lia.
Qed.

Lemma daily_completions_perm tasks tasks' :
  tasks ≡ₚ tasks' ->
  daily_completions_of (List.filter (is_status "Completed") tasks)
  = daily_completions_of (List.filter (is_status "Completed") tasks').
Proof.
  intros Hperm. apply map_eq. intros k.
  rewrite !daily_completions_lookup, (count_if_perm _ _ _ Hperm). reflexivity.
Qed.

Lemma filter_length_perm {A} (p : A -> bool) l l' :
  l ≡ₚ l' -> length (List.filter p l) = length (List.filter p l').
Proof.
  intros H. apply Nat2Z.inj. rewrite <- !count_if_length.
  by apply count_if_perm.
Qed.

Section TrendMore.

Variable clock : nat -> datetime.


(** X10. The trend has at most as many entries as there are completed
    records, and it is empty exactly when no completed record has a
    creation timestamp. *)
Theorem daily_completion_trend_size
    (user_id : string) (days : Z) (window_start window_end : datetime)
    (tasks : list task) (w : world) :
  len tasks <= PY_SSIZE_T_MAX ->
  exists r w',
    productivity_analyzer clock user_id days window_start window_end tasks w
      = (Ok r, w')
    /\ len (daily_completion_trend r) <= total_tasks_completed r
    /\ (daily_completion_trend r = []
        <-> Forall (fun t => is_status "Completed" t = true
                             -> has_createdAt t = false) tasks).
Proof.
  intros Hlen.
  destruct (productivity_analyzer_run clock user_id days window_start
              window_end tasks w Hlen) as (n & w' & _ & _ & Hrun).
  eexists _, w'. split; [exact Hrun|].
  cbn [daily_completion_trend total_tasks_completed].
  set (trend := trend_of _).
  assert (Hones : Forall (fun e => 1 <= count e) trend).
  { apply Forall_forall. intros e He. by apply elem_of_daily_trend in He as [? _]. }
  pose proof (len_le_sum_counts trend Hones) as Hlen_sum.
  pose proof (sum_counts_daily tasks) as Hsum. fold trend in Hsum.
  pose proof (count_if_and_le (is_status "Completed") has_createdAt tasks) as Hle.
  split; [lia|].
  assert (Hzero : count_if (fun t => is_status "Completed" t && has_createdAt t)
                            tasks = 0
                  <-> Forall (fun t => is_status "Completed" t = true
                                       -> has_createdAt t = false) tasks).
  { clear. induction tasks as [|t tasks IH].
    - split; [constructor|reflexivity].
    - rewrite count_if_cons, Forall_cons.
      pose proof (count_if_bounds
                    (fun t => is_status "Completed" t && has_createdAt t) tasks).
      destruct (is_status "Completed" t), (has_createdAt t); cbn [andb]; split.
      + lia.
      + intros [H1 _]. specialize (H1 eq_refl). discriminate.
      + intros H1. split; [auto|]. apply IH. lia.
      + intros [_ H1]. apply IH in H1. lia.
      + intros H1. split; [discriminate|]. apply IH. lia.
      + intros [_ H1]. apply IH in H1. lia.
      + intros H1. split; [discriminate|]. apply IH. lia.
      + intros [_ H1]. apply IH in H1. lia. }
  rewrite <- Hzero, <- Hsum. split.
  - intros ->. reflexivity.
  - intros H0. destruct trend as [|e l]; [reflexivity|].
    unfold len in Hlen_sum. simpl length in Hlen_sum. lia.
Qed.

(** X11. The productivity result does not depend on the order in which the
    store returns the records: both runs read the clock equally often, and
    the trend, the two totals, the averages and the score agree; with the
    clock standing still the overdue count agrees as well. *)
Theorem productivity_order_independent
    (user_id : string) (days : Z) (window_start window_end : datetime)
    (tasks tasks' : list task) (w : world) :
  tasks ≡ₚ tasks' ->
  len tasks <= PY_SSIZE_T_MAX ->
  exists r r' w',
    productivity_analyzer clock user_id days window_start window_end tasks w
      = (Ok r, w')
    /\ productivity_analyzer clock user_id days window_start window_end tasks' w
      = (Ok r', w')
    /\ daily_completion_trend r = daily_completion_trend r'
    /\ total_tasks_created r = total_tasks_created r'
    /\ total_tasks_completed r = total_tasks_completed r'
    /\ avg_tasks_per_day r = avg_tasks_per_day r'
    /\ avg_completions_per_day r = avg_completions_per_day r'
    /\ productivity_score r = productivity_score r'
    /\ ((exists now, forall k, (clock_reads w <= k)%nat -> clock k = now) ->
        r = r').
Proof.
  intros Hperm Hlen.
  assert (Hlen' : len tasks' <= PY_SSIZE_T_MAX)
    by (rewrite <- (len_perm _ _ Hperm); exact Hlen).
  destruct (productivity_analyzer_run clock user_id days window_start
              window_end tasks w Hlen) as (n & w1 & Hsum & _ & Hrun).
  destruct (productivity_analyzer_run clock user_id days window_start
              window_end tasks' w Hlen') as (n' & w2 & Hsum' & _ & Hrun').
  destruct (overdue_sum_reads clock tasks 0 w) as (m & Hreads & _).
  destruct (overdue_sum_reads clock tasks' 0 w) as (m' & Hreads' & _).
  rewrite Hreads in Hsum. rewrite Hreads' in Hsum'.
  injection Hsum as <- <-. injection Hsum' as <- <-.
  rewrite <- (filter_length_perm due_candidate _ _ Hperm) in Hrun'.
  rewrite <- (len_perm _ _ Hperm) in Hrun'.
  rewrite <- !(count_if_perm _ _ _ Hperm) in Hrun'.
  rewrite <- (daily_completions_perm _ _ Hperm) in Hrun'.
  eexists _, _, _. split; [exact Hrun|]. split; [exact Hrun'|].
  cbn [daily_completion_trend total_tasks_created total_tasks_completed
       avg_tasks_per_day avg_completions_per_day productivity_score].
  repeat split.
  intros [now Hclock].
  destruct (overdue_sum_frozen clock now tasks 0 w Hclock) as (k & Hf).
  destruct (overdue_sum_frozen clock now tasks' 0 w Hclock) as (k' & Hf').
  rewrite Hreads in Hf. rewrite Hreads' in Hf'.
  injection Hf as -> _. injection Hf' as -> _.
  rewrite (count_if_perm (is_overdue now) _ _ Hperm). reflexivity.
Qed.

(** X12. On the same list the productivity score of the analyzer is the
    completion rate of the aggregator, and the two agree on the totals. *)
Theorem productivity_score_is_completion_rate
    (user_id : string) (days : Z) (window_start window_end : datetime)
    (tasks : list task) (w : world) :
  len tasks <= PY_SSIZE_T_MAX ->
  exists r s w',
    productivity_analyzer clock user_id days window_start window_end tasks w
      = (Ok r, w')
    /\ statistics_aggregator user_id tasks = Ok s
    /\ total_tasks_created r = total_tasks s
    /\ total_tasks_completed r = completed_tasks s
    /\ productivity_score r = completion_rate s.
Proof.
  intros Hlen.
  destruct (productivity_analyzer_run clock user_id days window_start
              window_end tasks w Hlen) as (n & w' & _ & _ & Hrun).
  destruct tasks as [|t tasks].
  - eexists _, _, w'. split; [exact Hrun|]. split; [reflexivity|].
    repeat split.
  - eexists _, _, w'. split; [exact Hrun|].
    cbn [statistics_aggregator]. rewrite tally_statistics_Ok.
    split; [reflexivity|]. repeat split.
Qed.

End TrendMore.

(** ** More on the handlers *)

Lemma validate_object_id_outcome s :
  (exists oid, validate_object_id s = Ok oid)
  \/ validate_object_id s = Raise (HTTPException 400 "Invalid user ID format").
Proof.
  unfold validate_object_id. destruct (ObjectId_of_str s); [left; eauto|by right].
Qed.

Lemma int_truediv_raises_no_http a b : raises_no_http (int_truediv a b).
Proof.
  unfold int_truediv. destruct (b =? 0); [exact I|].
  destruct (is_finite (int_quotient a b)); exact I.
Qed.

Lemma per_day_raises_no_http n days : raises_no_http (per_day n days).
Proof.
  unfold per_day. destruct (0 <? days); [|exact I].
  pose proof (int_truediv_raises_no_http n days) as H.
  destruct (int_truediv n days) as [q|[]]; simpl in *; auto.
Qed.

Lemma percentage_raises_no_http c t : raises_no_http (percentage c t).
Proof.
  unfold percentage. destruct (0 <? t); [|exact I].
  pose proof (int_truediv_raises_no_http c t) as H.
  destruct (int_truediv c t) as [q|[]]; simpl in *; auto.
Qed.

Section HandlerMore.

Variable clock : nat -> datetime.
Variable find : query -> result (list task).
Variable datetime_sub_days : datetime -> Z -> result datetime.

Lemma productivity_analyzer_raises_no_http user_id days ws we tasks w :
  raises_no_http (productivity_analyzer clock user_id days ws we tasks w).1.
Proof.
  unfold productivity_analyzer, bind, lift, ret.
  pose proof (per_day_raises_no_http (len tasks) days) as H1.
  destruct (per_day (len tasks) days) as [a1|e1]; [|exact H1].
  match goal with
  | |- context [per_day ?n days] =>
      pose proof (per_day_raises_no_http n days) as H2;
      destruct (per_day n days) as [a2|e2]; [|exact H2]
  end.
  destruct (overdue_sum_run clock tasks 0 w) as (n & k & -> & _).
  match goal with
  | |- context [percentage ?c ?t] =>
      pose proof (percentage_raises_no_http c t) as H3;
      destruct (percentage c t) as [a3|e3]; [exact I|exact H3]
  end.
Qed.

(** X13. With a well-formed identifier and an answering store the
    statistics handler returns the aggregator's result for the fetched
    list, echoing the identifier; it sends exactly one query, filtered by
    the user alone, and never reads the clock. *)
Theorem statistics_handler_composition
    (user_id : string) (oid : ObjectId) (tasks : list task) (w : world) :
  validate_object_id user_id = Ok oid ->
  find (FindByUser oid) = Ok tasks ->
  exists r,
    get_user_statistics find user_id w
      = (Ok r, {| clock_reads := clock_reads w;
                  fetches := fetches w ++ [FindByUser oid] |})
    /\ statistics_aggregator user_id tasks = Ok r
    /\ us_success r = true
    /\ us_user_id r = user_id
    /\ total_tasks r = len tasks.
Proof.
  intros Hv Hfind.
  destruct (statistics_aggregator_Ok user_id tasks) as (r & Hr & Htot & _).
  exists r.
  unfold get_user_statistics, handle_errors, bind, lift, db_tasks_find.
  rewrite Hv, Hfind, Hr. split; [reflexivity|]. split; [reflexivity|].
  destruct tasks as [|t tasks]; cbn [statistics_aggregator] in Hr.
  - injection Hr as <-. repeat split.
  - rewrite tally_statistics_Ok in Hr. injection Hr as <-. repeat split.
Qed.

(** X14. When the store raises, the statistics handler answers 500 with
    the detail ["Error fetching user statistics: "] followed by the
    store's message; the one query was sent and no body is returned. *)
Theorem statistics_store_failure
    (user_id : string) (oid : ObjectId) (cls msg : string) (w : world) :
  validate_object_id user_id = Ok oid ->
  find (FindByUser oid) = Raise (PyException cls msg) ->
  get_user_statistics find user_id w
  = (Raise (HTTPException 500 ("Error fetching user statistics: " +:+ msg)),
     {| clock_reads := clock_reads w;
        fetches := fetches w ++ [FindByUser oid] |}).
Proof.
  intros Hv Hfind.
  unfold get_user_statistics, handle_errors, bind, lift, db_tasks_find.
  rewrite Hv, Hfind. reflexivity.
Qed.

(** X15. In the productivity handler a failure to compute the start of
    the window is answered with 500 before any query is sent, and a
    failure of the store with 500 after the one query; both details start
    with ["Error fetching productivity analysis: "] and carry the
    underlying message. *)
Theorem productivity_failures
    (user_id : string) (days : option Z) (oid : ObjectId)
    (cls msg : string) (w : world) :
  validate_object_id user_id = Ok oid ->
  (datetime_sub_days (clock (clock_reads w)) (default 30 days)
     = Raise (PyException cls msg) ->
   get_productivity_analysis clock find datetime_sub_days user_id days w
   = (Raise (HTTPException 500
               ("Error fetching productivity analysis: " +:+ msg)),
      {| clock_reads := S (clock_reads w); fetches := fetches w |}))
  /\ (forall window_start,
        datetime_sub_days (clock (clock_reads w)) (default 30 days)
          = Ok window_start ->
        find (FindByUserCreatedBetween oid window_start (clock (clock_reads w)))
          = Raise (PyException cls msg) ->
        get_productivity_analysis clock find datetime_sub_days user_id days w
        = (Raise (HTTPException 500
                    ("Error fetching productivity analysis: " +:+ msg)),
           {| clock_reads := S (clock_reads w);
              fetches := fetches w
                         ++ [FindByUserCreatedBetween oid window_start
                               (clock (clock_reads w))] |})).
Proof.
  intros Hv. split.
  - intros Hsub.
    unfold get_productivity_analysis, handle_errors.
    unfold bind at 1, lift at 1. rewrite Hv.
    unfold bind at 1, datetime_now.
    unfold bind at 1, lift at 1. rewrite Hsub. reflexivity.
  - intros window_start Hsub Hfind.
    unfold get_productivity_analysis, handle_errors.
    unfold bind at 1, lift at 1. rewrite Hv.
    unfold bind at 1, datetime_now.
    unfold bind at 1, lift at 1. rewrite Hsub.
    unfold bind at 1, db_tasks_find. cbn [fetches clock_reads].
    rewrite Hfind. reflexivity.
Qed.

(** X16. With a well-formed identifier, a computable window and an
    answering store the productivity handler reads the clock first, asks
    the store for the user's records created between [now - days] and
    [now] ([days] defaulting to 30), and returns a body that reports that
    window, its length and the number of fetched records. *)
Theorem productivity_handler_composition
    (user_id : string) (days : option Z) (oid : ObjectId)
    (window_start : datetime) (tasks : list task) (w : world) :
  validate_object_id user_id = Ok oid ->
  datetime_sub_days (clock (clock_reads w)) (default 30 days) = Ok window_start ->
  find (FindByUserCreatedBetween oid window_start (clock (clock_reads w)))
    = Ok tasks ->
  len tasks <= PY_SSIZE_T_MAX ->
  exists r w',
    get_productivity_analysis clock find datetime_sub_days user_id days w
      = (Ok r, w')
    /\ fetches w'
       = fetches w ++ [FindByUserCreatedBetween oid window_start
                         (clock (clock_reads w))]
    /\ pa_success r = true
    /\ pa_user_id r = user_id
    /\ period_days r = default 30 days
    /\ start_date r = isoformat window_start
    /\ end_date r = isoformat (clock (clock_reads w))
    /\ total_tasks_created r = len tasks.
Proof.
  intros Hv Hsub Hfind Hlen.
  unfold get_productivity_analysis, handle_errors.
  unfold bind at 1, lift at 1. rewrite Hv.
  unfold bind at 1, datetime_now.
  unfold bind at 1, lift at 1. rewrite Hsub.
  unfold bind at 1, db_tasks_find. cbn [fetches clock_reads]. rewrite Hfind.
  match goal with
  | |- context [productivity_analyzer ?c ?u ?d ?s ?e ?t ?w1] =>
      destruct (productivity_analyzer_run c u d s e t w1 Hlen)
        as (n & w' & _ & Hf & ->)
  end.
  eexists _, w'. split; [reflexivity|]. split; [exact Hf|]. repeat split.
Qed.

(** X17. Provided the store client and the date arithmetic raise no
    [HTTPException] of their own, a request to either handler ends in a
    body or in an [HTTPException] with status 400 or 500; no other
    exception leaves a handler. *)
Theorem handlers_http_outcome
    (user_id : string) (days : option Z) (w : world) :
  (forall q, raises_no_http (find q)) ->
  (forall d n, raises_no_http (datetime_sub_days d n)) ->
  http_outcome (get_user_statistics find user_id w).1
  /\ http_outcome
       (get_productivity_analysis clock find datetime_sub_days user_id days w).1.
Proof.
  intros Hfind Hsub. split.
  - unfold get_user_statistics, handle_errors, bind, lift, db_tasks_find.
    destruct (validate_object_id_outcome user_id) as [[oid ->]| ->];
      [|cbn; by left].
    pose proof (Hfind (FindByUser oid)) as Hq.
    destruct (find (FindByUser oid)) as [tasks|[code detail|cls msg]].
    + destruct (statistics_aggregator_Ok user_id tasks) as (r & -> & _).
      exact I.
    + contradiction.
    + cbn. by right.
  - unfold get_productivity_analysis, handle_errors.
    unfold bind at 1, lift at 1.
    destruct (validate_object_id_outcome user_id) as [[oid ->]| ->];
      [|cbn; by left].
    unfold bind at 1, datetime_now.
    unfold bind at 1, lift at 1.
    pose proof (Hsub (clock (clock_reads w)) (default 30 days)) as Hs.
    destruct (datetime_sub_days _ _) as [start|[code detail|cls msg]];
      [|contradiction|cbn; by right].
    unfold bind at 1, db_tasks_find. cbn [fetches clock_reads].
    pose proof (Hfind (FindByUserCreatedBetween oid start (clock (clock_reads w))))
      as Hq.
    destruct (find _) as [tasks|[code detail|cls msg]];
      [|contradiction|cbn; by right].
    match goal with
    | |- context [productivity_analyzer ?c ?u ?d ?s ?e ?t ?w1] =>
        pose proof (productivity_analyzer_raises_no_http u d s e t w1) as Ha;
        destruct (productivity_analyzer c u d s e t w1)
          as [[r|[code detail|cls msg]] w']
    end.
    + exact I.
    + contradiction.
    + cbn. by right.
Qed.

End HandlerMore.

(** ** The further properties at the sample data *)

Lemma sample_validated : validate_object_id sample_id = Ok sample_oid.
Proof. reflexivity. Defined.

Lemma sample_store_silent : forall q, raises_no_http (sample_find q).
Proof. intros q. exact I. Defined.

Lemma sample_sub_days_silent : forall d n, raises_no_http (sample_sub_days d n).
Proof.
  intros d n. unfold sample_sub_days.
  destruct ((0 <=? n) && (n <? day d)); exact I.
Defined.

Lemma statistics_order_independent_witness :
  sample_tasks ≡ₚ sample_tasks_reordered
  /\ statistics_aggregator sample_id sample_tasks
     = statistics_aggregator sample_id sample_tasks_reordered.
Proof.
  assert (H : sample_tasks ≡ₚ sample_tasks_reordered)
    by (symmetry; apply reverse_Permutation).
  split; [exact H|].
  exact (statistics_order_independent sample_id sample_tasks
           sample_tasks_reordered H).
Defined.

Lemma completion_rate_extremes_witness :
  Forall (fun t => is_status "Completed" t = true) sample_all_completed
  /\ Forall (fun t => is_status "Completed" t = false) sample_none_completed
  /\ (exists r, statistics_aggregator sample_id sample_all_completed = Ok r
        /\ completion_rate r = PyFloat f100)
  /\ (exists r, statistics_aggregator sample_id sample_none_completed = Ok r
        /\ completion_rate r = PyFloat (S754_zero false)).
Proof.
  assert (Hall : Forall (fun t => is_status "Completed" t = true)
                        sample_all_completed) by (repeat constructor).
  assert (Hnone : Forall (fun t => is_status "Completed" t = false)
                         sample_none_completed) by (repeat constructor).
  split; [exact Hall|]. split; [exact Hnone|]. split.
  - destruct (completion_rate_extremes sample_id
                (sample_task "Completed" "Low" (Some (sample_day 2024 3 10)) None)
                (drop 1 sample_all_completed)) as (r & Hr & H1 & _).
    exists r. split; [exact Hr|]. exact (H1 Hall).
  - destruct (completion_rate_extremes sample_id
                (sample_task "Todo" "Medium" (Some (sample_day 2024 3 11))
                             (Some (sample_day 2024 3 12)))
                (drop 1 sample_none_completed)) as (r & Hr & _ & H0).
    exists r. split; [exact Hr|]. exact (H0 Hnone).
Defined.

Lemma overdue_within_open_tasks_witness :
  len sample_tasks <= PY_SSIZE_T_MAX
  /\ exists r w',
       productivity_analyzer sample_clock sample_id 7 (sample_day 2024 3 8)
         sample_now sample_tasks sample_world = (Ok r, w')
       /\ 0 <= overdue_tasks r <= count_if due_candidate sample_tasks
       /\ overdue_tasks r + total_tasks_completed r <= total_tasks_created r
       /\ clock_reads w'
          = (clock_reads sample_world
             + length (List.filter due_candidate sample_tasks))%nat
       /\ fetches w' = fetches sample_world.
Proof.
  split; [exact sample_tasks_fit|].
  exact (overdue_within_open_tasks sample_clock sample_id 7
           (sample_day 2024 3 8) sample_now sample_tasks sample_world
           sample_tasks_fit).
Defined.

Lemma sample_clock_between : forall k : nat,
  (clock_reads sample_world <= k)%nat ->
  datetime_le (sample_day 2024 3 15) (sample_clock k)
  /\ datetime_le (sample_clock k) sample_now.
Proof. intros k _. split; compute; discriminate. Defined.

Lemma overdue_tasks_bracket_witness :
  len sample_tasks <= PY_SSIZE_T_MAX
  /\ (forall k : nat, (clock_reads sample_world <= k)%nat ->
        datetime_le (sample_day 2024 3 15) (sample_clock k)
        /\ datetime_le (sample_clock k) sample_now)
  /\ exists r w',
       productivity_analyzer sample_clock sample_id 7 (sample_day 2024 3 8)
         sample_now sample_tasks sample_world = (Ok r, w')
       /\ count_if (is_overdue (sample_day 2024 3 15)) sample_tasks
          <= overdue_tasks r <= count_if (is_overdue sample_now) sample_tasks.
Proof.
  split; [exact sample_tasks_fit|]. split; [exact sample_clock_between|].
  exact (overdue_tasks_bracket sample_clock sample_id 7 (sample_day 2024 3 8)
           sample_now sample_tasks sample_world (sample_day 2024 3 15)
           sample_now sample_tasks_fit sample_clock_between).
Defined.

Lemma productivity_numbers_nonneg_finite_witness :
  len sample_tasks <= PY_SSIZE_T_MAX
  /\ exists r w',
       productivity_analyzer sample_clock sample_id 7 (sample_day 2024 3 8)
         sample_now sample_tasks sample_world = (Ok r, w')
       /\ pynum_nonneg_finite (avg_tasks_per_day r) = true
       /\ pynum_nonneg_finite (avg_completions_per_day r) = true
       /\ pynum_nonneg_finite (productivity_score r) = true.
Proof.
  split; [exact sample_tasks_fit|].
  exact (productivity_numbers_nonneg_finite sample_clock sample_id 7
           (sample_day 2024 3 8) sample_now sample_tasks sample_world
           sample_tasks_fit).
Defined.


Lemma daily_completion_trend_size_witness :
  len sample_tasks <= PY_SSIZE_T_MAX
  /\ exists r w',
       productivity_analyzer sample_clock sample_id 7 (sample_day 2024 3 8)
         sample_now sample_tasks sample_world = (Ok r, w')
       /\ len (daily_completion_trend r) <= total_tasks_completed r
       /\ (daily_completion_trend r = []
           <-> Forall (fun t => is_status "Completed" t = true
                                -> has_createdAt t = false) sample_tasks).
Proof.
  split; [exact sample_tasks_fit|].
  exact (daily_completion_trend_size sample_clock sample_id 7
           (sample_day 2024 3 8) sample_now sample_tasks sample_world
           sample_tasks_fit).
Defined.

Lemma productivity_order_independent_witness :
  sample_tasks ≡ₚ sample_tasks_reordered
  /\ len sample_tasks <= PY_SSIZE_T_MAX
  /\ exists r w',
       productivity_analyzer sample_clock sample_id 7 (sample_day 2024 3 8)
         sample_now sample_tasks sample_world = (Ok r, w')
       /\ productivity_analyzer sample_clock sample_id 7 (sample_day 2024 3 8)
            sample_now sample_tasks_reordered sample_world = (Ok r, w').
Proof.
  assert (H : sample_tasks ≡ₚ sample_tasks_reordered)
    by (symmetry; apply reverse_Permutation).
  split; [exact H|]. split; [exact sample_tasks_fit|].
  destruct (productivity_order_independent sample_clock sample_id 7
              (sample_day 2024 3 8) sample_now sample_tasks
              sample_tasks_reordered sample_world H sample_tasks_fit)
    as (r & r' & w' & Hr & Hr' & _ & _ & _ & _ & _ & _ & Heq).
  exists r, w'. split; [exact Hr|].
  assert (Hfrozen : exists now, forall k : nat,
            (clock_reads sample_world <= k)%nat -> sample_clock k = now)
    by (exists sample_now; reflexivity).
  rewrite (Heq Hfrozen). exact Hr'.
Defined.

Lemma productivity_score_is_completion_rate_witness :
  len sample_tasks <= PY_SSIZE_T_MAX
  /\ exists r s w',
       productivity_analyzer sample_clock sample_id 7 (sample_day 2024 3 8)
         sample_now sample_tasks sample_world = (Ok r, w')
       /\ statistics_aggregator sample_id sample_tasks = Ok s
       /\ total_tasks_created r = total_tasks s
       /\ total_tasks_completed r = completed_tasks s
       /\ productivity_score r = completion_rate s.
Proof.
  split; [exact sample_tasks_fit|].
  exact (productivity_score_is_completion_rate sample_clock sample_id 7
           (sample_day 2024 3 8) sample_now sample_tasks sample_world
           sample_tasks_fit).
Defined.

Lemma statistics_handler_composition_witness :
  validate_object_id sample_id = Ok sample_oid
  /\ sample_find (FindByUser sample_oid) = Ok sample_tasks
  /\ exists r,
       get_user_statistics sample_find sample_id sample_world
         = (Ok r, {| clock_reads := clock_reads sample_world;
                     fetches := fetches sample_world ++ [FindByUser sample_oid] |})
       /\ statistics_aggregator sample_id sample_tasks = Ok r
       /\ us_success r = true
       /\ us_user_id r = sample_id
       /\ total_tasks r = len sample_tasks.
Proof.
  split; [exact sample_validated|]. split; [reflexivity|].
  exact (statistics_handler_composition sample_find sample_id sample_oid
           sample_tasks sample_world sample_validated eq_refl).
Defined.

Lemma statistics_store_failure_witness :
  validate_object_id sample_id = Ok sample_oid
  /\ sample_failing_find (FindByUser sample_oid)
     = Raise (PyException "ServerSelectionTimeoutError"
                          "localhost:27017: connection refused")
  /\ get_user_statistics sample_failing_find sample_id sample_world
     = (Raise (HTTPException 500
                 "Error fetching user statistics: localhost:27017: connection refused"),
        {| clock_reads := 0; fetches := [FindByUser sample_oid] |}).
Proof.
  split; [exact sample_validated|]. split; [reflexivity|].
  exact (statistics_store_failure sample_failing_find sample_id sample_oid
           "ServerSelectionTimeoutError" "localhost:27017: connection refused"
           sample_world sample_validated eq_refl).
Defined.

Lemma productivity_failures_witness :
  validate_object_id sample_id = Ok sample_oid
  /\ get_productivity_analysis sample_clock sample_find sample_failing_sub_days
       sample_id (Some 7) sample_world
     = (Raise (HTTPException 500
                 "Error fetching productivity analysis: date value out of range"),
        {| clock_reads := 1; fetches := [] |})
  /\ get_productivity_analysis sample_clock sample_failing_find sample_sub_days
       sample_id (Some 7) sample_world
     = (Raise (HTTPException 500
                 "Error fetching productivity analysis: localhost:27017: connection refused"),
        {| clock_reads := 1;
           fetches := [FindByUserCreatedBetween sample_oid
                         (mk_datetime 2024 3 8 12 0 0 0) sample_now] |}).
Proof.
  split; [exact sample_validated|]. split.
  - exact (proj1 (productivity_failures sample_clock sample_find
                    sample_failing_sub_days sample_id (Some 7) sample_oid
                    "OverflowError" "date value out of range" sample_world
                    sample_validated) eq_refl).
  - exact (proj2 (productivity_failures sample_clock sample_failing_find
                    sample_sub_days sample_id (Some 7) sample_oid
                    "ServerSelectionTimeoutError"
                    "localhost:27017: connection refused" sample_world
                    sample_validated) _ eq_refl eq_refl).
Defined.

Lemma productivity_handler_composition_witness :
  validate_object_id sample_id = Ok sample_oid
  /\ sample_sub_days (sample_clock (clock_reads sample_world)) (default 30 (Some 7))
     = Ok (mk_datetime 2024 3 8 12 0 0 0)
  /\ len sample_tasks <= PY_SSIZE_T_MAX
  /\ exists r w',
       get_productivity_analysis sample_clock sample_find sample_sub_days
         sample_id (Some 7) sample_world = (Ok r, w')
       /\ fetches w'
          = fetches sample_world
            ++ [FindByUserCreatedBetween sample_oid
                  (mk_datetime 2024 3 8 12 0 0 0)
                  (sample_clock (clock_reads sample_world))]
       /\ pa_success r = true
       /\ pa_user_id r = sample_id
       /\ period_days r = 7
       /\ start_date r = "2024-03-08T12:00:00"
       /\ end_date r = "2024-03-15T12:00:00"
       /\ total_tasks_created r = len sample_tasks.
Proof.
  split; [exact sample_validated|]. split; [reflexivity|].
  split; [exact sample_tasks_fit|].
  exact (productivity_handler_composition sample_clock sample_find
           sample_sub_days sample_id (Some 7) sample_oid
           (mk_datetime 2024 3 8 12 0 0 0) sample_tasks sample_world
           sample_validated eq_refl eq_refl sample_tasks_fit).
Defined.

Lemma handlers_http_outcome_witness :
  (forall q, raises_no_http (sample_find q))
  /\ (forall d n, raises_no_http (sample_sub_days d n))
  /\ http_outcome (get_user_statistics sample_find "not-an-id" sample_world).1
  /\ http_outcome
       (get_productivity_analysis sample_clock sample_find sample_sub_days
          sample_id (Some 400) sample_world).1.
Proof.
  split; [exact sample_store_silent|]. split; [exact sample_sub_days_silent|].
  split.
  - exact (proj1 (handlers_http_outcome sample_clock sample_find sample_sub_days
                    "not-an-id" (Some 400) sample_world
                    sample_store_silent sample_sub_days_silent)).
  - exact (proj2 (handlers_http_outcome sample_clock sample_find sample_sub_days
                    sample_id (Some 400) sample_world
                    sample_store_silent sample_sub_days_silent)).
Defined.
